(** * Gnip-Analysis-Tools: measurements and image enrichment

    A shallow embedding of
      - gnip_analysis_tools/measurements/measurement_base.py
      - gnip_analysis_tools/enrichments/image_enrichment.py
    Python objects become records, attribute presence (hasattr) becomes
    [option], exceptions become the [Error] branch of [result], and a
    method that mutates [self] returns the new [self] together with its
    result. *)

From Stdlib Require Import ZArith String Ascii Bool Lia List.
From Stdlib Require Import Sorting.Sorted Sorting.Permutation.
Import ListNotations.

Set Warnings "-register-all".
Local Open Scope string_scope.
Local Open Scope Z_scope.

(** ** Python values, exceptions *)

Module Py.

(** A subscript: [data[key]] is used with string keys (key paths) and
    with the integer [0] (first media entry). *)
Inductive pykey : Type :=
| KStr (s : string)
| KInt (i : Z).

(** The exceptions the two modules can raise.  [External] stands for an
    exception of a library called by the code (requests, PIL, keras). *)
Inductive exn : Type :=
| KeyError (k : pykey)
| IndexError
| TypeError
| AttributeError (msg : string)
| NotImplementedError (msg : string)
| External (name : string).

Inductive result (A : Type) : Type :=
| OK (a : A)
| Error (e : exn).
Arguments OK {A} a.
Arguments Error {A} e.

Definition bind {A B : Type} (r : result A) (k : A -> result B) : result B :=
  match r with
  | OK a => k a
  | Error e => Error e
  end.

(** A [for] loop collecting results; the first exception ends the loop. *)
Fixpoint collect {A B : Type} (f : A -> result B) (l : list A) : result (list B) :=
  match l with
  | [] => OK []
  | a :: l' =>
      match f a with
      | Error e => Error e
      | OK b =>
          match collect f l' with
          | Error e => Error e
          | OK bs => OK (b :: bs)
          end
      end
  end.

(** A decoded JSON payload (a Tweet): dicts with string keys, lists and
    scalars.  Numbers are integers here. *)
Inductive json : Type :=
| JNull
| JBool (b : bool)
| JNum (n : Z)
| JStr (s : string)
| JList (l : list json)
| JDict (d : list (string * json)).

Fixpoint assoc {V : Type} (k : string) (d : list (string * V)) : option V :=
  match d with
  | [] => None
  | (k', v) :: d' => if String.eqb k k' then Some v else assoc k d'
  end.

(** [l[i]] on a Python sequence, negative indices counting from the end. *)
Definition seq_index {A : Type} (l : list A) (i : Z) : result A :=
  let n := Z.of_nat (List.length l) in
  let j := if i <? 0 then i + n else i in
  if (j <? 0) || (n <=? j) then Error IndexError
  else match nth_error l (Z.to_nat j) with
       | Some a => OK a
       | None => Error IndexError
       end.

Fixpoint chars (s : string) : list json :=
  match s with
  | EmptyString => []
  | String c s' => JStr (String c EmptyString) :: chars s'
  end.

(** [data[key]] *)
Definition getitem (data : json) (key : pykey) : result json :=
  match data, key with
  | JDict d, KStr k =>
      match assoc k d with
      | Some v => OK v
      | None => Error (KeyError key)
      end
  | JDict _, KInt _ => Error (KeyError key)
  | JList l, KInt i => seq_index l i
  | JStr s, KInt i => seq_index (chars s) i
  | _, _ => Error TypeError
  end.

(** [s in t] for strings: [s] occurs in [t]. *)
Fixpoint is_prefix (s t : string) : bool :=
  match s, t with
  | EmptyString, _ => true
  | String a s', String b t' => Ascii.eqb a b && is_prefix s' t'
  | String _ _, EmptyString => false
  end.

Fixpoint is_substring (s t : string) : bool :=
  is_prefix s t ||
  match t with
  | EmptyString => false
  | String _ t' => is_substring s t'
  end.

Definition is_str (k : string) (v : json) : bool :=
  match v with
  | JStr s => String.eqb k s
  | _ => false
  end.

(** [k in data] for a string [k]. *)
Definition contains (k : string) (data : json) : result bool :=
  match data with
  | JDict d => OK (match assoc k d with Some _ => true | None => false end)
  | JList l => OK (existsb (is_str k) l)
  | JStr s => OK (is_substring k s)
  | _ => Error TypeError
  end.

(** Truth value of a JSON value, as tested by [if x:]. *)
Definition truthy (v : json) : bool :=
  match v with
  | JNull => false
  | JBool b => b
  | JNum n => negb (n =? 0)
  | JStr s => negb (String.eqb s "")
  | JList l => match l with [] => false | _ => true end
  | JDict d => match d with [] => false | _ => true end
  end.

End Py.
Import Py.

Declare Scope py_scope.
Notation "x <- c1 ;; c2" := (bind c1 (fun x => c2))
  (at level 61, c1 at next level, right associativity) : py_scope.
Local Open Scope py_scope.

(** ** measurement_base.py *)

(** *** get_element, the recursive helper of add_tweet *)

Fixpoint get_element (data : json) (key_path : list pykey) : result json :=
  match key_path with
  | [] => Error IndexError                      (* key_path[0] *)
  | key :: new_key_path =>
      match new_key_path with
      | [] => getitem data key
      | _ :: _ =>
          obj <- getitem data key ;;
          match obj with
          | JList os =>
              results <- collect (fun o => get_element o new_key_path) os ;;
              OK (JList results)
          | _ => get_element obj new_key_path
          end
      end
  end.

(** *** Counters: a dict of integer counts

    A dict keeps its keys in insertion order and [items()] iterates in
    that order, so the entries are an association list.  [has_default]
    tells a [collections.defaultdict(int)] from a plain dict: reading a
    missing key of the former creates it with count 0, of the latter
    raises KeyError. *)

Record pydict : Type := mkdict {
  has_default : bool;
  entries : list (string * Z)
}.

Definition defaultdict_int : pydict := mkdict true [].

Definition items (d : pydict) : list (string * Z) := entries d.

Definition dict_get (k : string) (d : pydict) : option Z := assoc k (entries d).

Definition dict_in (k : string) (d : pydict) : bool :=
  match dict_get k d with Some _ => true | None => false end.

(** [d[k] = v] on the entries: an existing key keeps its place, a new
    key goes last. *)
Fixpoint set_entry (k : string) (v : Z) (l : list (string * Z)) : list (string * Z) :=
  match l with
  | [] => [(k, v)]
  | (k', v') :: l' =>
      if String.eqb k k' then (k, v) :: l' else (k', v') :: set_entry k v l'
  end.

Definition dict_set (k : string) (v : Z) (d : pydict) : pydict :=
  mkdict (has_default d) (set_entry k v (entries d)).

(** [d[k] += n] *)
Definition dict_iadd (k : string) (n : Z) (d : pydict) : result pydict :=
  match dict_get k d with
  | Some v => OK (dict_set k (v + n) d)
  | None =>
      if has_default d then OK (dict_set k (0 + n) d)
      else Error (KeyError (KStr k))
  end.

(** A dict comprehension [{k: v for ...}] over the given pairs. *)
Definition dict_of_pairs (l : list (string * Z)) : pydict :=
  fold_left (fun d kv => dict_set (fst kv) (snd kv) d) l (mkdict false []).

(** *** Measurement objects *)

(** A filter: (key path, comparison function, comparison value). *)
Record filter_spec : Type := mkfilter {
  f_key_path : list pykey;
  f_comparator : json -> json -> bool;
  f_value : json
}.

(** The counting state: none for a bare MeasurementBase, [self.counter]
    for Counter, [self.counters] for Counters. *)
Inductive accumulator : Type :=
| NoCounter
| ScalarCounter (counter : Z)
| NamedCounters (counters : pydict).

Record measurement : Type := mkmeasurement {
  class_name : string;                  (* self.__class__.__name__ *)
  filters : option (list filter_spec);  (* hasattr(self,"filters") *)
  top_k : option Z;
  min_n : option Z;
  term_list : option (list string);
  acc : accumulator
}.

Definition set_acc (a : accumulator) (m : measurement) : measurement :=
  mkmeasurement (class_name m) (filters m) (top_k m) (min_n m) (term_list m) a.

Definition set_top_k (k : Z) (m : measurement) : measurement :=
  mkmeasurement (class_name m) (filters m) (Some k) (min_n m) (term_list m) (acc m).

Definition set_min_n (n : Z) (m : measurement) : measurement :=
  mkmeasurement (class_name m) (filters m) (top_k m) (Some n) (term_list m) (acc m).

Definition get_name (m : measurement) : string := class_name m.

(** [self.counter] and [self.counters], AttributeError when the object
    has no such attribute. *)
Definition attr_counter (m : measurement) : result Z :=
  match acc m with
  | ScalarCounter c => OK c
  | _ => Error (AttributeError "counter")
  end.

Definition attr_counters (m : measurement) : result pydict :=
  match acc m with
  | NamedCounters d => OK d
  | _ => Error (AttributeError "counters")
  end.

(** *** combine *)

Definition combine_message : string :=
  "Please implement a 'combine' method for your measurement class".

(** MeasurementBase.combine.  A method returns the object after the call
    and the value returned or the exception raised. *)
Definition MeasurementBase_combine (self other : measurement)
  : measurement * result unit :=
  (self, Error (NotImplementedError combine_message)).

(** Counter.combine *)
Definition Counter_combine (self new_counter : measurement)
  : measurement * result unit :=
  match attr_counter self with
  | Error e => (self, Error e)
  | OK c =>
      match attr_counter new_counter with
      | Error e => (self, Error e)
      | OK c' => (set_acc (ScalarCounter (c + c')) self, OK tt)
      end
  end.

(** The body of the loop of Counters.combine. *)
Definition combine_step (d : pydict) (new : string * Z) : pydict :=
  let (new_name, new_count) := new in
  if dict_in new_name d then
    match dict_get new_name d with
    | Some v => dict_set new_name (v + new_count) d
    | None => d
    end
  else dict_set new_name new_count d.

Definition combine_counters (self_counters new_counters : pydict) : pydict :=
  fold_left combine_step (items new_counters) self_counters.

(** Counters.combine *)
Definition Counters_combine (self new_counters : measurement)
  : measurement * result unit :=
  match attr_counters new_counters with
  | Error e => (self, Error e)
  | OK d' =>
      match d' with
      | mkdict _ [] => (self, OK tt)   (* empty loop: self.counters is not read *)
      | _ =>
          match attr_counters self with
          | Error e => (self, Error e)
          | OK d => (set_acc (NamedCounters (combine_counters d d')) self, OK tt)
          end
      end
  end.

(** Method resolution: Counter and Counters override combine, every
    other measurement inherits MeasurementBase.combine. *)
Definition combine (self other : measurement) : measurement * result unit :=
  match acc self with
  | NoCounter => MeasurementBase_combine self other
  | ScalarCounter _ => Counter_combine self other
  | NamedCounters _ => Counters_combine self other
  end.

(** *** get: the plain and the specialised versions *)

Definition output : Type := list (Z * string).

Definition swap (nc : string * Z) : Z * string := (snd nc, fst nc).

(** [sorted(pairs, key=operator.itemgetter(1))]: ascending by count and
    stable, entries of equal count keep their relative order. *)
Fixpoint insert_by_count (x : string * Z) (l : list (string * Z)) : list (string * Z) :=
  match l with
  | [] => [x]
  | y :: l' => if snd x <=? snd y then x :: l else y :: insert_by_count x l'
  end.

Fixpoint sorted_by_count (l : list (string * Z)) : list (string * Z) :=
  match l with
  | [] => []
  | x :: l' => insert_by_count x (sorted_by_count l')
  end.

(** [l[:k]]: a negative [k] counts from the end. *)
Definition slice_to {A : Type} (l : list A) (k : Z) : list A :=
  if k <? 0 then firstn (List.length l - Z.to_nat (- k)) l
  else firstn (Z.to_nat k) l.

(** Counter.get *)
Definition Counter_get (self : measurement) : measurement * result output :=
  match attr_counter self with
  | Error e => (self, Error e)
  | OK c => (self, OK [(c, get_name self)])
  end.

(** [super(GetCutoffTopCounts)] has one argument, so it is an unbound
    super object; looking a method up on it raises AttributeError. *)
Definition unbound_super_getattr (A : Type) (name : string) : result A :=
  Error (AttributeError ("'super' object has no attribute '" ++ name ++ "'")).

Section Get.

(** nlp.utils.sanitize_string is imported, not defined in these files. *)
Variable sanitize_string : string -> string.

(** Counters.get *)
Definition Counters_get (self : measurement) : measurement * result output :=
  match attr_counters self with
  | Error e => (self, Error e)
  | OK d => (self, OK (map (fun nc => (snd nc, sanitize_string (fst nc))) (items d)))
  end.

Definition sanitized (d : pydict) : pydict :=
  dict_of_pairs (map (fun nc => (sanitize_string (fst nc), snd nc)) (items d)).

(** GetBase.get_init *)
Definition get_init (self : measurement) : measurement * result unit :=
  match attr_counters self with
  | Error e => (self, Error e)
  | OK d => (set_acc (NamedCounters (sanitized d)) self, OK tt)
  end.

(** [if not hasattr(self,'top_k'): setattr(self,'top_k',20)] *)
Definition default_top_k (self : measurement) : measurement :=
  match top_k self with
  | Some _ => self
  | None => set_top_k 20 self
  end.

Definition default_min_n (self : measurement) : measurement :=
  match min_n self with
  | Some _ => self
  | None => set_min_n 3 self
  end.

Definition the_top_k (self : measurement) : Z :=
  match top_k self with Some k => k | None => 20 end.

Definition the_min_n (self : measurement) : Z :=
  match min_n self with Some n => n | None => 3 end.

Definition top_counts (d : pydict) (k : Z) : output :=
  let sorted_top := rev (sorted_by_count (items d)) in
  map swap (slice_to sorted_top k).

(** GetTopCounts.get *)
Definition GetTopCounts_get (self : measurement) : measurement * result output :=
  match get_init self with
  | (self, Error e) => (self, Error e)
  | (self, OK _) =>
      let self := default_top_k self in
      match attr_counters self with
      | Error e => (self, Error e)
      | OK d => (self, OK (top_counts d (the_top_k self)))
      end
  end.

Definition cutoff (d : pydict) (n : Z) : pydict :=
  dict_of_pairs (filter (fun tc => n <=? snd tc) (items d)).

(** GetCutoffCounts.get *)
Definition GetCutoffCounts_get (self : measurement) : measurement * result output :=
  match get_init self with
  | (self, Error e) => (self, Error e)
  | (self, OK _) =>
      let self := default_min_n self in
      match attr_counters self with
      | Error e => (self, Error e)
      | OK d =>
          let d' := cutoff d (the_min_n self) in
          (set_acc (NamedCounters d') self, OK (map swap (items d')))
      end
  end.

(** GetCutoffTopCounts.get.  Were the lookup on the super object to give
    a method, its result, a list, would be stored in self.counters and
    [.items()] on it would raise AttributeError as well. *)
Definition GetCutoffTopCounts_get (self : measurement) : measurement * result output :=
  match get_init self with
  | (self, Error e) => (self, Error e)
  | (self, OK _) =>
      let self := default_top_k self in
      match unbound_super_getattr (measurement -> measurement * result output) "get" with
      | Error e => (self, Error e)
      | OK super_get =>
          match super_get self with
          | (self, Error e) => (self, Error e)
          | (self, OK _) => (self, Error (AttributeError "'list' object has no attribute 'items'"))
          end
      end
  end.

(** The three specialised [get] methods, by the class that provides them. *)
Inductive view : Type :=
| GetTopCounts
| GetCutoffCounts
| GetCutoffTopCounts.

Definition get (v : view) (self : measurement) : measurement * result output :=
  match v with
  | GetTopCounts => GetTopCounts_get self
  | GetCutoffCounts => GetCutoffCounts_get self
  | GetCutoffTopCounts => GetCutoffTopCounts_get self
  end.

End Get.

(** *** add_tweet: filters, then update *)

(** What a call of add_tweet does, in order: each comparison of a filter
    (its position in [self.filters] and its outcome) and the call of
    [self.update]. *)
Inductive event : Type :=
| EvCompare (position : nat) (passed : bool)
| EvUpdate.

(** The loop over [self.filters]: [OK false] is the early [return]. *)
Fixpoint run_filters (tweet : json) (position : nat) (fs : list filter_spec)
  : list event * result bool :=
  match fs with
  | [] => ([], OK true)
  | f :: fs' =>
      match get_element tweet (f_key_path f) with
      | Error e => ([], Error e)
      | OK data =>
          if f_comparator f data (f_value f) then
            let (evs, r) := run_filters tweet (S position) fs' in
            (EvCompare position true :: evs, r)
          else ([EvCompare position false], OK false)
      end
  end.

Definition method : Type := measurement -> json -> measurement * result unit.

(** MeasurementBase.add_tweet; [update] is the method of the derived class. *)
Definition add_tweet (update : method) (self : measurement) (tweet : json)
  : list event * (measurement * result unit) :=
  match filters self with
  | Some fs =>
      match run_filters tweet 0 fs with
      | (evs, Error e) => (evs, (self, Error e))
      | (evs, OK false) => (evs, (self, OK tt))
      | (evs, OK true) => ((evs ++ [EvUpdate])%list, update self tweet)
      end
  | None => ([EvUpdate], update self tweet)
  end.

(** A [for] loop whose body mutates [self]; an exception ends it. *)
Fixpoint for_each {A : Type} (body : A -> measurement -> measurement * result unit)
  (l : list A) (self : measurement) : measurement * result unit :=
  match l with
  | [] => (self, OK tt)
  | a :: l' =>
      match body a self with
      | (self, Error e) => (self, Error e)
      | (self, OK _) => for_each body l' self
      end
  end.

(** Iteration over a JSON value: the elements of a list, the keys of a
    dict, the characters of a string. *)
Definition iter (v : json) : result (list json) :=
  match v with
  | JList l => OK l
  | JDict d => OK (map (fun kv => JStr (fst kv)) d)
  | JStr s => OK (chars s)
  | _ => Error TypeError
  end.

Section Tokens.

(** nlp.utils.token_ok and nlp.utils.term_comparator are imported, not
    defined in these files. *)
Variable token_ok : json -> bool.
Variable term_comparator : json -> string -> bool.

(** TokenizedBody.get_tokens and TokenizedBio.get_tokens differ in the
    names of the two enrichments only. *)
Definition tokenized_get_tokens (nlp nltk : string) (tweet : json) : result (list json) :=
  enrichments <- getitem tweet (KStr "enrichments") ;;
  has_nlp <- contains nlp enrichments ;;
  tokens <-
    (if has_nlp : bool then
       enrichments <- getitem tweet (KStr "enrichments") ;;
       e <- getitem enrichments (KStr nlp) ;;
       sentences <- getitem e (KStr "sentences") ;;
       sentences <- iter sentences ;;
       per_sentence <- collect iter sentences ;;
       OK (concat per_sentence)
     else
       enrichments <- getitem tweet (KStr "enrichments") ;;
       has_nltk <- contains nltk enrichments ;;
       if has_nltk : bool then
         enrichments <- getitem tweet (KStr "enrichments") ;;
         tokens <- getitem enrichments (KStr nltk) ;;
         iter tokens
       else Error (KeyError (KStr "No NLP enrichment found!"))) ;;
  OK (filter token_ok tokens).

Definition TokenizedBody_get_tokens : json -> result (list json) :=
  tokenized_get_tokens "BodyNLPEnrichment" "NLTKSpaceTokenizeBody".

Definition TokenizedBio_get_tokens : json -> result (list json) :=
  tokenized_get_tokens "BioNLPEnrichment" "NLTKSpaceTokenizeBio".

(** [self.counters[name] += 1] *)
Definition increment (name : string) (self : measurement) : measurement * result unit :=
  match attr_counters self with
  | Error e => (self, Error e)
  | OK d =>
      match dict_iadd name 1 d with
      | Error e => (self, Error e)
      | OK d' => (set_acc (NamedCounters d') self, OK tt)
      end
  end.

Definition count_term (token : json) (term : string) (self : measurement)
  : measurement * result unit :=
  if term_comparator token term then increment term self else (self, OK tt).

Definition count_token (token : json) (self : measurement) : measurement * result unit :=
  match term_list self with
  | None => (self, Error (AttributeError "term_list"))
  | Some terms => for_each (count_term token) terms self
  end.

(** SpecifiedBodyTermCounters.update and SpecifiedBioTermCounters.update,
    with the get_tokens of the class they are mixed with. *)
Definition specified_update (get_tokens : json -> result (list json)) : method :=
  fun self tweet =>
    match get_tokens tweet with
    | Error e => (self, Error e)
    | OK tokens => for_each count_token tokens self
    end.

Definition SpecifiedBodyTermCounters_update : method :=
  specified_update TokenizedBody_get_tokens.

Definition SpecifiedBioTermCounters_update : method :=
  specified_update TokenizedBio_get_tokens.

(** The aggregator feeds the tweets one by one; an exception ends the run. *)
Fixpoint add_tweets (update : method) (self : measurement) (tweets : list json)
  : measurement * result unit :=
  match tweets with
  | [] => (self, OK tt)
  | tweet :: tweets' =>
      match snd (add_tweet update self tweet) with
      | (self, Error e) => (self, Error e)
      | (self, OK _) => add_tweets update self tweets'
      end
  end.

End Tokens.

(** ** image_enrichment.py *)

Module ImageLabel.

Section Enrichment.

(** The libraries behind the enrichment: requests, PIL and keras.  A call
    into them returns a value or raises. *)
Context {bytes image predictions probability : Type}.

Record response : Type := mkresponse {
  ok : bool;
  status_code : Z;
  content : bytes
}.

(** [requests.get(img_url)] *)
Variable requests_get : json -> result response.
(** [Image.open(BytesIO(content))] *)
Variable Image_open : bytes -> result image.
(** Conversion, resizing and preprocessing of the image, followed by
    [self.model.predict(x)]. *)
Variable model_predict : image -> result predictions.
(** [k_decode_predictions(preds, top=topk)]: per sample, a list of
    (code, description, probability). *)
Variable k_decode_predictions :
  predictions -> Z -> list (list (string * string * probability)).
(** [str] of a probability. *)
Variable str_probability : probability -> string.

Definition topk : Z := 5.

(** [logging.info('...{}'.format(tweet['id']))] *)
Definition log_tweet_id (tweet : json) : result unit :=
  _ <- getitem tweet (KStr "id") ;; OK tt.

Definition _get_img_url (tweet : json) : result json :=
  has_entities <- contains "twitter_entities" tweet ;;
  no_media <-
    (if has_entities : bool then
       entities <- getitem tweet (KStr "twitter_entities") ;;
       has_media <- contains "media" entities ;;
       OK (negb has_media)
     else OK true) ;;
  if no_media : bool then
    _ <- log_tweet_id tweet ;; OK JNull
  else
    match (entities <- getitem tweet (KStr "twitter_entities") ;;
           media <- getitem entities (KStr "media") ;;
           first <- getitem media (KInt 0) ;;
           getitem first (KStr "media_url")) with
    | OK media_url => OK media_url
    | Error (KeyError _) => _ <- log_tweet_id tweet ;; OK JNull
    | Error e => Error e
    end.

Definition _download_image (img_url : json) : result (option image) :=
  response <- requests_get img_url ;;
  if ok response then
    img <- Image_open (content response) ;; OK (Some img)
  else OK None.

Definition _get_image_from_tweet (tweet : json) : result (option image) :=
  img_url <- _get_img_url tweet ;;
  if truthy img_url then _download_image img_url
  else _ <- log_tweet_id tweet ;; OK None.

Definition _make_predictions (img : image) (topk : Z)
  : result (list (string * string * probability)) :=
  preds <- model_predict img ;;
  match k_decode_predictions preds topk with
  | first :: _ => OK first
  | [] => Error IndexError
  end.

Definition _format_output (l : list (string * string * probability))
  : list (string * string * string) :=
  map (fun item => let '(code, description, p) := item in
                   (description, str_probability p, code)) l.

Definition enrichment_value (tweet : json)
  : result (option (list (string * string * string))) :=
  img <- _get_image_from_tweet tweet ;;
  match img with
  | Some img =>
      predictions <- _make_predictions img topk ;;
      OK (Some (_format_output predictions))
  | None => OK None
  end.

End Enrichment.

End ImageLabel.

(** * Vocabulary of the statements *)

Definition keys (d : pydict) : list string := map fst (entries d).

(** The keys of a dict are pairwise distinct. *)
Definition wf_dict (d : pydict) : Prop := NoDup (keys d).

(** Union with sum, on the counts of one name. *)
Definition merge (a b : option Z) : option Z :=
  match a, b with
  | Some x, Some y => Some (x + y)
  | Some x, None => Some x
  | None, b => b
  end.

(** The state of an accumulator, compared the way Python compares: two
    integers by value, two dicts as mappings (order of keys apart). *)
Definition same_counts (a b : accumulator) : Prop :=
  match a, b with
  | NoCounter, NoCounter => True
  | ScalarCounter x, ScalarCounter y => x = y
  | NamedCounters d, NamedCounters e => forall k, dict_get k d = dict_get k e
  | _, _ => False
  end.

(** An accumulator that has a combine of its own: the integer of a
    Counter, or the dict of a Counters, its keys pairwise distinct as in
    every dict. *)
Definition mergeable (a : accumulator) : Prop :=
  match a with
  | NoCounter => False
  | ScalarCounter _ => True
  | NamedCounters d => wf_dict d
  end.

(** Both of a Counter, or both of a Counters. *)
Definition same_kind (a b : accumulator) : Prop :=
  match a, b with
  | ScalarCounter _, ScalarCounter _ => True
  | NamedCounters _, NamedCounters _ => True
  | _, _ => False
  end.

(** [self] after [self.combine(other)]. *)
Definition combined (self other : measurement) : measurement :=
  fst (combine self other).

(** The order of [sorted(.., key=operator.itemgetter(1))]. *)
Definition count_le (x y : string * Z) : Prop := snd x <= snd y.

(** Counts never increase along an output. *)
Definition count_ge (x y : Z * string) : Prop := fst y <= fst x.

Definition with_count (c : Z) (x : string * Z) : bool := snd x =? c.

Definition row_with_count (c : Z) (r : Z * string) : bool := fst r =? c.

(** How entries of equal count are ordered in an output, relative to
    the iteration order of the snapshot: for every count, the rows of
    that count are the leading ones among the snapshot's entries of that
    count, taken in the order [order] puts them. *)
Definition ties_follow (order : list (string * Z) -> list (string * Z))
  (snapshot : list (string * Z)) (out : output) : Prop :=
  forall c, exists rest,
    map swap (order (filter (with_count c) snapshot)) =
    (filter (row_with_count c) out ++ rest)%list.

(** One step of a dict comprehension, on the entries. *)
Definition set_pair (es : list (string * Z)) (kv : string * Z) : list (string * Z) :=
  set_entry (fst kv) (snd kv) es.

(** The filter resolves on the tweet and its comparison holds. *)
Definition passes (tweet : json) (f : filter_spec) : Prop :=
  exists data, get_element tweet (f_key_path f) = OK data /\
               f_comparator f data (f_value f) = true.

(** The filter resolves on the tweet and its comparison fails. *)
Definition rejects (tweet : json) (f : filter_spec) : Prop :=
  exists data, get_element tweet (f_key_path f) = OK data /\
               f_comparator f data (f_value f) = false.

(** The comparisons of the filters at positions [p], ..., [p + k - 1],
    all of them passed. *)
Definition passed_from (p k : nat) : list event :=
  map (fun i => EvCompare i true) (seq p k).

(** Does add_tweet hand the tweet to update? *)
Definition admits (fs : option (list filter_spec)) (tweet : json) : bool :=
  match fs with
  | None => true
  | Some fs =>
      match snd (run_filters tweet 0 fs) with
      | OK true => true
      | _ => false
      end
  end.

(** The measurement has its filters and term list, and no entry for [term]. *)
Definition without_term (fs : option (list filter_spec)) (terms : list string)
  (term : string) (self : measurement) : Prop :=
  filters self = fs /\ term_list self = Some terms /\
  exists d, acc self = NamedCounters d /\ dict_get term d = None.

(** ** For the further properties *)

(** Every filter of the measurement passes on the tweet (none to pass
    when the measurement has no filters attribute). *)
Definition all_pass (self : measurement) (tweet : json) : Prop :=
  match filters self with
  | None => True
  | Some fs => Forall (passes tweet) fs
  end.

(** The comparisons made before update is called. *)
Definition comparisons (self : measurement) : list event :=
  match filters self with
  | None => []
  | Some fs => passed_from 0 (length fs)
  end.

(** The pairs a dict comprehension over the names of [d] goes through. *)
Definition sanitized_pairs (sanitize_string : string -> string) (d : pydict)
  : list (string * Z) :=
  map (fun nc => (sanitize_string (fst nc), snd nc)) (items d).

(** The sum of all counts of a dict. *)
Definition total (l : list (string * Z)) : Z :=
  fold_right (fun nc s => snd nc + s) 0 l.

(** A count after [n] increments: no entry is made by none. *)
Definition bump (o : option Z) (n : nat) : option Z :=
  match n with
  | O => o
  | S _ => Some (match o with Some v => v | None => 0 end + Z.of_nat n)
  end.

(** How often update increments the count of [term]: once for every
    token the term matches and every occurrence of the term in the list. *)
Definition term_hits (term_comparator : json -> string -> bool)
  (tokens : list json) (terms : list string) (term : string) : nat :=
  (length (filter (fun token => term_comparator token term) tokens) *
   count_occ string_dec terms term)%nat.

(** ** Missing keys *)

(** Resolving [key_path] on [data] comes to a dict that lacks the key
    [k], everything before it resolving: the dict is [data] itself, or
    the value under the first key, or an element of the list under the
    first key whose earlier elements resolve. *)
Inductive key_absent : json -> list pykey -> string -> Prop :=
| absent_here (d : list (string * json)) (k : string) (rest : list pykey) :
    assoc k d = None ->
    key_absent (JDict d) (KStr k :: rest) k
| absent_below (data : json) (key : pykey) (obj : json) (rest : list pykey)
    (k : string) :
    getitem data key = OK obj ->
    (forall os, obj <> JList os) ->
    key_absent obj rest k ->
    key_absent data (key :: rest) k
| absent_in_element (data : json) (key : pykey) (before : list json) (o : json)
    (after : list json) (rest : list pykey) (k : string) :
    getitem data key = OK (JList (before ++ o :: after)) ->
    Forall (fun o' => exists r, get_element o' rest = OK r) before ->
    key_absent o rest k ->
    key_absent data (key :: rest) k.

(** * Inputs of the examples *)

Definition counters_abc : pydict := mkdict true [("a", 2); ("b", 5); ("c", 1)].
Definition counters_zab : pydict := mkdict true [("z", 1); ("a", 1); ("b", 4)].
Definition counters_cq : pydict := mkdict true [("c", 7); ("q", 3)].

Definition a_measurement (name : string) (d : pydict) : measurement :=
  mkmeasurement name None None None None (NamedCounters d).

Definition tweet_with_media : json :=
  JDict [("id", JStr "tag:search.twitter.com,2005:1");
         ("twitter_entities",
          JDict [("media", JList [JDict [("media_url", JStr "http://t.co/a.jpg")];
                                  JDict [("media_url", JStr "http://t.co/b.jpg")]])])].

(** operator.eq on the strings of a payload. *)
Definition eq_str (data value : json) : bool :=
  match data, value with
  | JStr a, JStr b => String.eqb a b
  | _, _ => false
  end.

Definition retweet_filter : filter_spec := mkfilter [KStr "verb"] eq_str (JStr "share").

Definition actor_filter (field : string) : filter_spec :=
  mkfilter [KStr "actor"; KStr field] eq_str (JStr "gnip").

Definition a_post (id : string) : json :=
  JDict [("id", JStr id); ("verb", JStr "post")].

Definition filtered_counter (fs : list filter_spec) : measurement :=
  mkmeasurement "MentionCounters" (Some fs) None None None
    (NamedCounters defaultdict_int).

(** An update that would raise if it were called. *)
Definition failing_update : method :=
  fun self _ => (set_acc NoCounter self, Error TypeError).

Definition eq_term (token : json) (term : string) : bool :=
  match token with
  | JStr s => String.eqb s term
  | _ => false
  end.

Definition tweet_cat_bird_cat : json :=
  JDict [("id", JStr "1");
         ("enrichments",
          JDict [("NLTKSpaceTokenizeBody", JList [JStr "cat"; JStr "bird"; JStr "cat"])])].

Definition cat_dog_counters : measurement :=
  mkmeasurement "SpecifiedBodyTermCounters" None None None (Some ["cat"; "dog"])
    (NamedCounters defaultdict_int).

(** Stand-ins for the libraries: a server that answers, one that is not
    reachable, a model with one prediction. *)
Definition http_ok (status : Z) : json -> result (@ImageLabel.response unit) :=
  fun _ => OK (ImageLabel.mkresponse (status =? 200) status tt).

Definition unreachable : json -> result (@ImageLabel.response unit) :=
  fun _ => Error (External "requests.exceptions.ConnectionError").

Definition open_any : unit -> result unit := fun _ => OK tt.

Definition predict_any : unit -> result unit := fun _ => OK tt.

Definition decode_tabby : unit -> Z -> list (list (string * string * unit)) :=
  fun _ _ => [[("n02123045", "tabby", tt)]].

Definition str_any : unit -> string := fun _ => "0.9".

(** A stand-in for sanitize_string that drops a leading hash sign. *)
Definition strip_hash (name : string) : string :=
  match name with
  | String "#" rest => rest
  | _ => name
  end.

Definition counters_cat_hashcat : pydict := mkdict true [("cat", 2); ("#cat", 5)].

(** A tweet with both tokenizations of the body. *)
Definition tweet_two_tokenizations : json :=
  JDict [("id", JStr "1");
         ("enrichments",
          JDict [("NLTKSpaceTokenizeBody", JList [JStr "a"; JStr "cat."]);
                 ("BodyNLPEnrichment",
                  JDict [("sentences",
                          JList [JList [JStr "a"; JStr "cat"]; JList [JStr "."]])])])].

(** A stand-in for token_ok that rejects the full stop. *)
Definition not_full_stop (token : json) : bool := negb (is_str "." token).

(** A retweet whose actor has no name. *)
Definition a_share_of_nameless_actor : json :=
  JDict [("id", JStr "7"); ("verb", JStr "share");
         ("actor", JDict [("id", JStr "id:twitter.com:7")])].

(** A tweet whose body has the tokens #cat and bird. *)
Definition tweet_hashcat_bird : json :=
  JDict [("id", JStr "2");
         ("enrichments",
          JDict [("NLTKSpaceTokenizeBody", JList [JStr "#cat"; JStr "bird"])])].

Definition cat_hashcat_counters : measurement :=
  mkmeasurement "SpecifiedBodyTermCounters" None None None (Some ["cat"; "#cat"])
    (NamedCounters defaultdict_int).

(** * Properties *)

Ltac distinct_keys :=
  repeat constructor; simpl; intuition discriminate.

(** ** Dicts: lookup after assignment, uniqueness of keys *)

Lemma assoc_None_iff {V : Type} (k : string) (l : list (string * V)) :
  assoc k l = None <-> ~ In k (map fst l).
Proof.
  induction l as [|[k' v] l IH]; simpl.
  - tauto.
  - destruct (String.eqb_spec k k') as [->|Hne].
    + split; [discriminate | intros H; exfalso; apply H; now left].
    + rewrite IH. split.
      * intros H [Heq|Hin]; [congruence | tauto].
      * intros H Hin. apply H. now right.
Qed.

Lemma assoc_In {V : Type} (k : string) (v : V) (l : list (string * V)) :
  assoc k l = Some v -> In (k, v) l.
Proof.
  induction l as [|[k' v'] l IH]; simpl; [discriminate|].
  destruct (String.eqb_spec k k') as [->|Hne].
  - intros [= ->]. now left.
  - intros H. right. now apply IH.
Qed.

Lemma assoc_set_entry (k k' : string) (v : Z) (l : list (string * Z)) :
  assoc k' (set_entry k v l) = if String.eqb k' k then Some v else assoc k' l.
Proof.
  induction l as [|[k0 v0] l IH]; simpl.
  - reflexivity.
  - destruct (String.eqb_spec k k0) as [->|Hne]; simpl.
    + destruct (String.eqb_spec k' k0); reflexivity.
    + rewrite IH. destruct (String.eqb_spec k' k0) as [->|?].
      * destruct (String.eqb_spec k0 k); congruence.
      * reflexivity.
Qed.

Lemma keys_set_entry (k : string) (v : Z) (l : list (string * Z)) :
  map fst (set_entry k v l) =
  match assoc k l with
  | Some _ => map fst l
  | None => (map fst l ++ [k])%list
  end.
Proof.
  induction l as [|[k0 v0] l IH]; simpl.
  - reflexivity.
  - destruct (String.eqb_spec k k0) as [->|Hne]; simpl.
    + reflexivity.
    + rewrite IH. now destruct (assoc k l).
Qed.

Lemma NoDup_set_entry (k : string) (v : Z) (l : list (string * Z)) :
  NoDup (map fst l) -> NoDup (map fst (set_entry k v l)).
Proof.
  intros Hnd. rewrite keys_set_entry.
  destruct (assoc k l) eqn:Hk; [assumption|].
  apply assoc_None_iff in Hk.
  apply NoDup_app; [assumption | repeat constructor; intros [] | ].
  intros x Hx [<-|[]]. contradiction.
Qed.

Lemma dict_get_set (k k' : string) (v : Z) (d : pydict) :
  dict_get k' (dict_set k v d) = if String.eqb k' k then Some v else dict_get k' d.
Proof. apply assoc_set_entry. Qed.

Lemma wf_dict_set (k : string) (v : Z) (d : pydict) :
  wf_dict d -> wf_dict (dict_set k v d).
Proof. apply NoDup_set_entry. Qed.

Lemma In_assoc {V : Type} (k : string) (v : V) (l : list (string * V)) :
  NoDup (map fst l) -> In (k, v) l -> assoc k l = Some v.
Proof.
  induction l as [|[k' v'] l IH]; simpl; intros Hnd Hin; [contradiction|].
  inversion Hnd as [|? ? Hnot Hnd']; subst.
  destruct Hin as [[= -> ->]|Hin].
  - now rewrite String.eqb_refl.
  - destruct (String.eqb_spec k k') as [->|Hne]; [|now apply IH].
    exfalso. apply Hnot. apply in_map_iff. exists (k', v). auto.
Qed.

(** Two dicts that agree on every lookup have the same entries, up to
    the order of iteration. *)
Lemma same_lookup_same_entries (d e : pydict) :
  wf_dict d -> wf_dict e ->
  (forall k, dict_get k d = dict_get k e) ->
  Permutation (entries d) (entries e).
Proof.
  unfold wf_dict, keys, dict_get. intros Hd He Hget.
  apply NoDup_Permutation.
  - eapply NoDup_map_inv. exact Hd.
  - eapply NoDup_map_inv. exact He.
  - intros [k v]. split; intros Hin; apply assoc_In.
    + rewrite <- Hget. now apply In_assoc.
    + rewrite Hget. now apply In_assoc.
Qed.

(** ** combine *)

Lemma merge_comm (a b : option Z) : merge a b = merge b a.
Proof. destruct a, b; simpl; try reflexivity. f_equal. lia. Qed.

Lemma merge_assoc (a b c : option Z) : merge (merge a b) c = merge a (merge b c).
Proof. destruct a, b, c; simpl; try reflexivity. f_equal. lia. Qed.

Lemma dict_get_combine_step (k : string) (d : pydict) (new : string * Z) :
  dict_get k (combine_step d new) =
  if String.eqb k (fst new) then merge (dict_get (fst new) d) (Some (snd new))
  else dict_get k d.
Proof.
  destruct new as [n c]. unfold combine_step, dict_in. simpl.
  destruct (dict_get n d) eqn:Hn; rewrite dict_get_set; reflexivity.
Qed.

Lemma wf_combine_step (d : pydict) (new : string * Z) :
  wf_dict d -> wf_dict (combine_step d new).
Proof.
  destruct new as [n c]. unfold combine_step, dict_in.
  destruct (dict_get n d); intros; now apply wf_dict_set.
Qed.

Lemma dict_get_fold_combine (k : string) (news : list (string * Z)) :
  NoDup (map fst news) ->
  forall d, dict_get k (fold_left combine_step news d) = merge (dict_get k d) (assoc k news).
Proof.
  induction news as [|[n c] news IH]; intros Hnd d; cbn [fold_left assoc].
  - now destruct (dict_get k d).
  - inversion Hnd as [|? ? Hnotin Hnd']; subst.
    rewrite (IH Hnd'), dict_get_combine_step. cbn [fst snd].
    destruct (String.eqb_spec k n) as [->|Hne].
    + apply assoc_None_iff in Hnotin. rewrite Hnotin.
      now destruct (dict_get n d).
    + reflexivity.
Qed.

Lemma dict_get_combine_counters (k : string) (d d' : pydict) :
  wf_dict d' ->
  dict_get k (combine_counters d d') = merge (dict_get k d) (dict_get k d').
Proof. intros Hwf. now apply dict_get_fold_combine. Qed.

Lemma wf_combine_counters (d d' : pydict) :
  wf_dict d -> wf_dict (combine_counters d d').
Proof.
  unfold combine_counters, items. generalize (entries d'). intros news.
  revert d. induction news as [|new news IH]; intros d Hwf; simpl.
  - assumption.
  - apply IH. now apply wf_combine_step.
Qed.

Lemma combine_counters_empty (d : pydict) (b : bool) :
  combine_counters d (mkdict b []) = d.
Proof. reflexivity. Qed.

Lemma Counters_combine_acc (self other : measurement) (d d' : pydict) :
  acc self = NamedCounters d -> acc other = NamedCounters d' ->
  Counters_combine self other =
  (set_acc (NamedCounters (combine_counters d d')) self, OK tt) \/
  (entries d' = [] /\ Counters_combine self other = (self, OK tt)).
Proof.
  intros Hs Ho. unfold Counters_combine, attr_counters. rewrite Ho, Hs.
  destruct d' as [b [|e es]]; [right | left]; auto.
Qed.

Lemma combine_named (self other : measurement) (d d' : pydict) :
  acc self = NamedCounters d -> acc other = NamedCounters d' ->
  snd (combine self other) = OK tt /\
  exists r, acc (combined self other) = NamedCounters r /\
            r = combine_counters d d'.
Proof.
  intros Hs Ho. unfold combined, combine. rewrite Hs.
  destruct (Counters_combine_acc self other d d' Hs Ho) as [-> | [He ->]]; simpl.
  - split; [reflexivity|]. eexists; split; reflexivity.
  - split; [reflexivity|]. exists d. split; [assumption|].
    destruct d' as [b es]. simpl in He. subst es. reflexivity.
Qed.

Lemma combine_scalar (self other : measurement) (c c' : Z) :
  acc self = ScalarCounter c -> acc other = ScalarCounter c' ->
  snd (combine self other) = OK tt /\
  acc (combined self other) = ScalarCounter (c + c').
Proof.
  intros Hs Ho. unfold combined, combine, Counter_combine, attr_counter.
  rewrite Hs, Ho. simpl. split; reflexivity.
Qed.

(** C1. For two accumulators of the same kind (both a Counter or both a
    Counters) combine succeeds and the state it leaves does not depend on
    the order of the arguments; combining three gives the same state in
    both groupings. *)
Theorem combine_commutative_associative (A B C : measurement) :
  mergeable (acc A) -> mergeable (acc B) -> mergeable (acc C) ->
  same_kind (acc A) (acc B) -> same_kind (acc B) (acc C) ->
  snd (combine A B) = OK tt /\
  snd (combine B A) = OK tt /\
  same_counts (acc (combined A B)) (acc (combined B A)) /\
  snd (combine (combined A B) C) = OK tt /\
  snd (combine A (combined B C)) = OK tt /\
  same_counts (acc (combined (combined A B) C)) (acc (combined A (combined B C))).
Proof.
  intros HA HB HC HAB HBC.
  destruct (acc A) as [|a|dA] eqn:EA; [contradiction| |];
    destruct (acc B) as [|b|dB] eqn:EB; try contradiction;
    destruct (acc C) as [|c|dC] eqn:EC; try contradiction.
  - destruct (combine_scalar A B a b EA EB) as [R1 S1].
    destruct (combine_scalar B A b a EB EA) as [R2 S2].
    destruct (combine_scalar B C b c EB EC) as [R3 S3].
    destruct (combine_scalar _ C _ c S1 EC) as [R4 S4].
    destruct (combine_scalar A _ a _ EA S3) as [R5 S5].
    repeat split; try assumption.
    + rewrite S1, S2. simpl. lia.
    + rewrite S4, S5. simpl. lia.
  - simpl in HA, HB, HC.
    destruct (combine_named A B dA dB EA EB) as [R1 [r1 [S1 ->]]].
    destruct (combine_named B A dB dA EB EA) as [R2 [r2 [S2 ->]]].
    destruct (combine_named B C dB dC EB EC) as [R3 [r3 [S3 ->]]].
    destruct (combine_named _ C _ dC S1 EC) as [R4 [r4 [S4 ->]]].
    destruct (combine_named A _ dA _ EA S3) as [R5 [r5 [S5 ->]]].
    repeat split; try assumption.
    + rewrite S1, S2. simpl. intros k.
      rewrite !dict_get_combine_counters by assumption. apply merge_comm.
    + rewrite S4, S5. simpl. intros k.
      rewrite !dict_get_combine_counters
        by (try assumption; now apply wf_combine_counters).
      apply merge_assoc.
Qed.

(** ** Sorting by count *)

Lemma insert_by_count_In (x y : string * Z) (l : list (string * Z)) :
  In y (insert_by_count x l) <-> y = x \/ In y l.
Proof.
  induction l as [|z l IH]; simpl.
  - intuition auto.
  - destruct (snd x <=? snd z); simpl; [|rewrite IH]; intuition auto.
Qed.

Lemma insert_by_count_sorted (x : string * Z) (l : list (string * Z)) :
  StronglySorted count_le l -> StronglySorted count_le (insert_by_count x l).
Proof.
  induction 1 as [|y l Hl IH Hy]; simpl.
  - repeat constructor.
  - destruct (Z.leb_spec (snd x) (snd y)) as [Hle|Hlt].
    + constructor; [now constructor|].
      constructor; [assumption|].
      eapply Forall_impl; [|exact Hy].
      unfold count_le in *. intros; lia.
    + constructor; [assumption|].
      apply Forall_forall. intros z Hz.
      apply insert_by_count_In in Hz as [->|Hz].
      * unfold count_le. lia.
      * rewrite Forall_forall in Hy. now apply Hy.
Qed.

Lemma sorted_by_count_sorted (l : list (string * Z)) :
  StronglySorted count_le (sorted_by_count l).
Proof.
  induction l; simpl; [constructor | now apply insert_by_count_sorted].
Qed.

Lemma insert_by_count_perm (x : string * Z) (l : list (string * Z)) :
  Permutation (insert_by_count x l) (x :: l).
Proof.
  induction l as [|y l IH]; simpl.
  - reflexivity.
  - destruct (snd x <=? snd y); [reflexivity|].
    rewrite IH. apply perm_swap.
Qed.

Lemma sorted_by_count_perm (l : list (string * Z)) :
  Permutation (sorted_by_count l) l.
Proof.
  induction l as [|x l IH]; simpl; [reflexivity|].
  rewrite insert_by_count_perm. now constructor.
Qed.

(** Stability: the entries of any one count are not reordered. *)
Lemma insert_by_count_stable (c : Z) (x : string * Z) (l : list (string * Z)) :
  filter (with_count c) (insert_by_count x l) = filter (with_count c) (x :: l).
Proof.
  induction l as [|y l IH]; [reflexivity|].
  cbn [insert_by_count].
  destruct (Z.leb_spec (snd x) (snd y)) as [Hle|Hlt]; [reflexivity|].
  cbn [filter] in *. rewrite IH. unfold with_count.
  destruct (Z.eqb_spec (snd y) c), (Z.eqb_spec (snd x) c); try reflexivity.
  lia.
Qed.

Lemma sorted_by_count_stable (c : Z) (l : list (string * Z)) :
  filter (with_count c) (sorted_by_count l) = filter (with_count c) l.
Proof.
  induction l as [|x l IH]; [reflexivity|].
  cbn [sorted_by_count]. rewrite insert_by_count_stable.
  cbn [filter]. now rewrite IH.
Qed.

Section SortedLists.

Context {A : Type}.

Lemma StronglySorted_app (R : A -> A -> Prop) (l1 l2 : list A) :
  StronglySorted R l1 -> StronglySorted R l2 ->
  (forall x y, In x l1 -> In y l2 -> R x y) ->
  StronglySorted R (l1 ++ l2).
Proof.
  induction 1 as [|a l1 Hl1 IH Ha]; intros H2 Hcross; simpl.
  - assumption.
  - constructor.
    + apply IH; [assumption|]. intros; apply Hcross; simpl; auto.
    + apply Forall_app. split; [assumption|].
      apply Forall_forall. intros y Hy. apply Hcross; simpl; auto.
Qed.

Lemma StronglySorted_rev (R : A -> A -> Prop) (l : list A) :
  StronglySorted R l -> StronglySorted (fun x y => R y x) (rev l).
Proof.
  induction 1 as [|a l Hl IH Ha]; simpl.
  - constructor.
  - apply StronglySorted_app; [assumption | repeat constructor |].
    intros x y Hx [<-|[]]. apply in_rev in Hx.
    rewrite Forall_forall in Ha. now apply Ha.
Qed.

Lemma StronglySorted_firstn (R : A -> A -> Prop) (n : nat) (l : list A) :
  StronglySorted R l -> StronglySorted R (firstn n l).
Proof.
  intros H. revert n. induction H as [|a l Hl IH Ha]; intros [|n]; simpl;
    try constructor.
  - apply IH.
  - apply Forall_forall. intros x Hx.
    rewrite Forall_forall in Ha. apply Ha.
    rewrite <- (firstn_skipn n l). apply in_or_app. now left.
Qed.

Lemma StronglySorted_map {B : Type} (f : A -> B) (R : A -> A -> Prop)
  (S : B -> B -> Prop) (l : list A) :
  (forall x y, R x y -> S (f x) (f y)) ->
  StronglySorted R l -> StronglySorted S (map f l).
Proof.
  intros Hf. induction 1 as [|a l Hl IH Ha]; simpl; constructor.
  - assumption.
  - apply Forall_map. eapply Forall_impl; [|exact Ha]. intros; now apply Hf.
Qed.

(** A slice [l[:k]] is a prefix of [l]. *)
Lemma slice_to_prefix (l : list A) (k : Z) :
  exists n, slice_to l k = firstn n l.
Proof. unfold slice_to. destruct (k <? 0); eauto. Qed.

Lemma slice_to_length (l : list A) (k : Z) :
  0 <= k -> Z.of_nat (length (slice_to l k)) <= k.
Proof.
  intros Hk. unfold slice_to.
  destruct (Z.ltb_spec k 0); [lia|].
  pose proof (firstn_le_length (Z.to_nat k) l). lia.
Qed.

End SortedLists.

Lemma top_counts_sorted (d : pydict) (k : Z) :
  StronglySorted count_ge (top_counts d k).
Proof.
  unfold top_counts.
  destruct (slice_to_prefix (rev (sorted_by_count (items d))) k) as [n ->].
  apply StronglySorted_map with (R := fun x y => count_le y x).
  - intros x y H. exact H.
  - apply StronglySorted_firstn, StronglySorted_rev, sorted_by_count_sorted.
Qed.

Lemma top_counts_length (d : pydict) (k : Z) :
  0 <= k -> Z.of_nat (length (top_counts d k)) <= k.
Proof.
  intros Hk. unfold top_counts. rewrite length_map. now apply slice_to_length.
Qed.

Lemma top_counts_ties (d : pydict) (k : Z) :
  ties_follow (@rev _) (items d) (top_counts d k).
Proof.
  intros c. unfold top_counts.
  set (s := rev (sorted_by_count (items d))).
  destruct (slice_to_prefix s k) as [n ->].
  exists (map swap (filter (with_count c) (skipn n s))).
  rewrite filter_map_swap.
  change (fun a => row_with_count c (swap a)) with (with_count c).
  rewrite <- map_app, <- filter_app, firstn_skipn.
  unfold s. now rewrite filter_rev, sorted_by_count_stable.
Qed.

(** ** Dict comprehensions *)

Lemma entries_fold_dict_set (l : list (string * Z)) (d : pydict) :
  entries (fold_left (fun d kv => dict_set (fst kv) (snd kv) d) l d) =
  fold_left set_pair l (entries d).
Proof.
  revert d. induction l as [|kv l IH]; intros d; simpl; [reflexivity|].
  now rewrite IH.
Qed.

Lemma entries_dict_of_pairs (l : list (string * Z)) :
  entries (dict_of_pairs l) = fold_left set_pair l [].
Proof. apply entries_fold_dict_set. Qed.

Lemma set_entry_new (k : string) (v : Z) (es : list (string * Z)) :
  ~ In k (map fst es) -> set_entry k v es = (es ++ [(k, v)])%list.
Proof.
  induction es as [|[k' v'] es IH]; simpl; intros Hnot; [reflexivity|].
  destruct (String.eqb_spec k k') as [->|Hne].
  - exfalso. apply Hnot. now left.
  - rewrite IH; [reflexivity|]. intros Hin. apply Hnot. now right.
Qed.

Lemma fold_set_pair_distinct (l es : list (string * Z)) :
  NoDup (map fst es ++ map fst l) -> fold_left set_pair l es = (es ++ l)%list.
Proof.
  revert es. induction l as [|[k v] l IH]; intros es Hnd; simpl.
  - now rewrite app_nil_r.
  - unfold set_pair at 2. simpl.
    assert (Hk : ~ In k (map fst es)).
    { apply NoDup_remove_2 in Hnd. intros Hin. apply Hnd.
      apply in_or_app. now left. }
    rewrite set_entry_new by assumption.
    rewrite IH.
    + now rewrite <- app_assoc.
    + rewrite map_app. simpl. now rewrite <- app_assoc.
Qed.

Lemma fold_set_pair_NoDup (l es : list (string * Z)) :
  NoDup (map fst es) -> NoDup (map fst (fold_left set_pair l es)).
Proof.
  revert es. induction l as [|kv l IH]; intros es Hnd; simpl; [assumption|].
  apply IH. now apply NoDup_set_entry.
Qed.

(** A comprehension is a dict; over pairs of distinct keys it has these
    pairs as entries, in their order. *)
Lemma wf_dict_of_pairs (l : list (string * Z)) : wf_dict (dict_of_pairs l).
Proof.
  unfold wf_dict, keys. rewrite entries_dict_of_pairs.
  apply fold_set_pair_NoDup. constructor.
Qed.

Lemma dict_of_pairs_distinct (l : list (string * Z)) :
  NoDup (map fst l) -> entries (dict_of_pairs l) = l.
Proof.
  intros Hnd. rewrite entries_dict_of_pairs.
  now apply fold_set_pair_distinct.
Qed.

Lemma NoDup_map_fst_filter (f : string * Z -> bool) (l : list (string * Z)) :
  NoDup (map fst l) -> NoDup (map fst (filter f l)).
Proof.
  induction l as [|x l IH]; simpl; intros Hnd; [constructor|].
  inversion Hnd as [|? ? Hnot Hnd']; subst.
  destruct (f x); simpl; [constructor|]; auto.
  intros Hin. apply Hnot.
  apply in_map_iff in Hin as [y [Hy Hin]].
  apply filter_In in Hin as [Hin _].
  apply in_map_iff. eauto.
Qed.

Section GetProperties.

Variable sanitize_string : string -> string.

Lemma wf_sanitized (d : pydict) : wf_dict (sanitized sanitize_string d).
Proof. apply wf_dict_of_pairs. Qed.

(** The entries that pass the cutoff, in the order of the dict. *)
Lemma entries_cutoff (d : pydict) (n : Z) :
  wf_dict d ->
  entries (cutoff d n) = filter (fun tc => n <=? snd tc) (entries d).
Proof.
  intros Hwf. unfold cutoff, items.
  apply dict_of_pairs_distinct. now apply NoDup_map_fst_filter.
Qed.

Lemma entries_sanitized_fixed (d : pydict) :
  wf_dict d ->
  (forall name, In name (keys d) -> sanitize_string name = name) ->
  entries (sanitized sanitize_string d) = entries d.
Proof.
  intros Hwf Hfix. unfold sanitized, items.
  assert (Hmap : map (fun nc : string * Z => (sanitize_string (fst nc), snd nc))
                   (entries d) = entries d).
  { unfold keys in Hfix. clear Hwf.
    induction (entries d) as [|[k v] es IH]; simpl; [reflexivity|].
    rewrite Hfix by (simpl; auto). f_equal.
    apply IH. intros; apply Hfix; simpl; auto. }
  rewrite Hmap. now apply dict_of_pairs_distinct.
Qed.

Lemma filter_all {A : Type} (f : A -> bool) (l : list A) :
  (forall x, In x l -> f x = true) -> filter f l = l.
Proof.
  induction l as [|x l IH]; simpl; intros H; [reflexivity|].
  rewrite H by auto. f_equal. apply IH. auto.
Qed.

Lemma get_init_named (self : measurement) (d : pydict) :
  acc self = NamedCounters d ->
  get_init sanitize_string self =
  (set_acc (NamedCounters (sanitized sanitize_string d)) self, OK tt).
Proof. intros H. unfold get_init, attr_counters. now rewrite H. Qed.

Lemma GetTopCounts_get_named (self : measurement) (d : pydict) :
  acc self = NamedCounters d ->
  GetTopCounts_get sanitize_string self =
  (default_top_k (set_acc (NamedCounters (sanitized sanitize_string d)) self),
   OK (top_counts (sanitized sanitize_string d) (the_top_k self))).
Proof.
  intros H. unfold GetTopCounts_get. rewrite (get_init_named self d H).
  destruct self as [name fs [k|] mn tl a]; reflexivity.
Qed.

Lemma GetCutoffCounts_get_named (self : measurement) (d : pydict) :
  acc self = NamedCounters d ->
  let d' := cutoff (sanitized sanitize_string d) (the_min_n self) in
  GetCutoffCounts_get sanitize_string self =
  (set_acc (NamedCounters d')
     (default_min_n (set_acc (NamedCounters (sanitized sanitize_string d)) self)),
   OK (map swap (items d'))).
Proof.
  intros H. unfold GetCutoffCounts_get. rewrite (get_init_named self d H).
  destruct self as [name fs k [n|] tl a]; reflexivity.
Qed.

End GetProperties.

(** ** Claims on combine and on the specialised get methods *)

Lemma combine_commutative_associative_witness :
  let A := a_measurement "AllBodyTerms" counters_abc in
  let B := a_measurement "AllBodyTerms" counters_zab in
  let C := a_measurement "AllBodyTerms" counters_cq in
  snd (combine A B) = OK tt /\
  snd (combine B A) = OK tt /\
  same_counts (acc (combined A B)) (acc (combined B A)) /\
  snd (combine (combined A B) C) = OK tt /\
  snd (combine A (combined B C)) = OK tt /\
  same_counts (acc (combined (combined A B) C)) (acc (combined A (combined B C))).
Proof.
  apply (combine_commutative_associative
           (a_measurement "AllBodyTerms" counters_abc)
           (a_measurement "AllBodyTerms" counters_zab)
           (a_measurement "AllBodyTerms" counters_cq));
    simpl; try exact I; unfold wf_dict; distinct_keys.
Defined.

(** The two orders of combining give the same mapping, yet the keys are
    iterated in different orders. *)
Example combine_iteration_order :
  items (combine_counters counters_abc counters_zab) =
    [("a", 3); ("b", 9); ("c", 1); ("z", 1)] /\
  items (combine_counters counters_zab counters_abc) =
    [("z", 1); ("a", 3); ("b", 9); ("c", 1)].
Proof. split; reflexivity. Qed.

(** C2, as amended.  GetTopCounts.get ranks the counters as get_init
    leaves them, with sanitized names: [ranked] holds all their entries,
    by count descending, entries of equal count in the reverse of their
    iteration order.  The rows returned are the first top_k of the
    ranking (all of it when it is shorter) for a top_k that is not
    negative, so at most top_k, and for a negative top_k the ranking
    without its last |top_k| rows.  The sanitized counters iterate like
    the counters themselves when the sanitized names are pairwise
    distinct. *)
Theorem GetTopCounts_get_descending_reverse_ties
  (sanitize_string : string -> string) (self : measurement) (d : pydict) :
  acc self = NamedCounters d ->
  exists ranked out,
    snd (GetTopCounts_get sanitize_string self) = OK out /\
    Permutation ranked (map swap (items (sanitized sanitize_string d))) /\
    StronglySorted count_ge ranked /\
    (forall c, filter (row_with_count c) ranked =
               map swap (rev (filter (with_count c)
                                (items (sanitized sanitize_string d))))) /\
    out = (if the_top_k self <? 0
           then firstn (length ranked - Z.to_nat (- the_top_k self)) ranked
           else firstn (Z.to_nat (the_top_k self)) ranked) /\
    StronglySorted count_ge out /\
    (the_top_k self < 0 \/ Z.of_nat (length out) <= the_top_k self) /\
    ties_follow (@rev _) (items (sanitized sanitize_string d)) out /\
    (NoDup (map sanitize_string (keys d)) ->
     items (sanitized sanitize_string d) =
     map (fun nc => (sanitize_string (fst nc), snd nc)) (items d)).
Proof.
  intros H. rewrite (GetTopCounts_get_named sanitize_string self d H).
  set (s := sanitized sanitize_string d).
  exists (map swap (rev (sorted_by_count (items s)))), (top_counts s (the_top_k self)).
  split; [reflexivity|]. split; [|split; [|split; [|split]]].
  - apply Permutation_map. rewrite <- Permutation_rev. apply sorted_by_count_perm.
  - apply StronglySorted_map with (R := fun x y => count_le y x).
    + intros x y Hxy. exact Hxy.
    + apply StronglySorted_rev, sorted_by_count_sorted.
  - intros c. rewrite filter_map_swap.
    change (fun a => row_with_count c (swap a)) with (with_count c).
    now rewrite filter_rev, sorted_by_count_stable.
  - unfold top_counts, slice_to. rewrite length_map.
    destruct (the_top_k self <? 0); now rewrite firstn_map.
  - split; [apply top_counts_sorted|]. split; [|split].
    + destruct (Z.ltb_spec (the_top_k self) 0); [now left | right].
      now apply top_counts_length.
    + apply top_counts_ties.
    + intros Hnd. unfold s, sanitized, items.
      apply dict_of_pairs_distinct. unfold keys in Hnd.
      rewrite map_map in Hnd |- *. exact Hnd.
Qed.

Lemma GetTopCounts_get_descending_reverse_ties_witness :
  let self := mkmeasurement "TopBodyTerms" None (Some (-1)) None None
                (NamedCounters counters_abc) in
  acc self = NamedCounters counters_abc /\
  exists ranked out,
    snd (GetTopCounts_get (fun s => s) self) = OK out /\
    Permutation ranked (map swap (items (sanitized (fun s => s) counters_abc))) /\
    StronglySorted count_ge ranked /\
    (forall c, filter (row_with_count c) ranked =
               map swap (rev (filter (with_count c)
                                (items (sanitized (fun s => s) counters_abc))))) /\
    out = (if the_top_k self <? 0
           then firstn (length ranked - Z.to_nat (- the_top_k self)) ranked
           else firstn (Z.to_nat (the_top_k self)) ranked) /\
    StronglySorted count_ge out /\
    (the_top_k self < 0 \/ Z.of_nat (length out) <= the_top_k self) /\
    ties_follow (@rev _) (items (sanitized (fun s => s) counters_abc)) out /\
    (NoDup (map (fun s : string => s) (keys counters_abc)) ->
     items (sanitized (fun s => s) counters_abc) =
     map (fun nc => ((fun s : string => s) (fst nc), snd nc)) (items counters_abc)).
Proof.
  split; [reflexivity|].
  apply (GetTopCounts_get_descending_reverse_ties (fun s => s)
           (mkmeasurement "TopBodyTerms" None (Some (-1)) None None
              (NamedCounters counters_abc)) counters_abc).
  reflexivity.
Defined.

(** The scenario of the specification: top 2 of a:2, b:5, c:1. *)
Example GetTopCounts_get_scenario :
  snd (GetTopCounts_get (fun s => s)
         (mkmeasurement "TopBodyTerms" None (Some 2) None None
            (NamedCounters counters_abc))) = OK [(5, "b"); (2, "a")].
Proof. reflexivity. Qed.

(** C2 as stated fails: with a:2, b:2 iterated in this order the output
    has b before a, so ties do not keep the iteration order; and with a
    negative top_k the slice drops rows from the end, here leaving two. *)
Lemma GetTopCounts_get_ties_not_in_iteration_order :
  let d := mkdict true [("a", 2); ("b", 2)] in
  let self := mkmeasurement "TopBodyTerms" None (Some 2) None None (NamedCounters d) in
  items (sanitized (fun s => s) d) = [("a", 2); ("b", 2)] /\
  snd (GetTopCounts_get (fun s => s) self) = OK [(2, "b"); (2, "a")] /\
  ~ ties_follow (fun l => l) [("a", 2); ("b", 2)] [(2, "b"); (2, "a")] /\
  snd (GetTopCounts_get (fun s => s)
         (mkmeasurement "TopBodyTerms" None (Some (-1)) None None
            (NamedCounters counters_abc))) = OK [(5, "b"); (2, "a")].
Proof.
  repeat split.
  intros H. destruct (H 2) as [rest Hrest].
  vm_compute in Hrest. discriminate Hrest.
Qed.

(** C3, as amended.  get of GetTopCounts and of GetCutoffCounts stores a
    new dict in self.counters: the one with sanitized names, and for the
    cutoff only its entries of at least min_n counts.  The entries are what
    they were when sanitize_string changes no name and, for the cutoff,
    every count reaches min_n. *)
Theorem get_stores_derived_counters
  (sanitize_string : string -> string) (self : measurement) (d : pydict) :
  acc self = NamedCounters d -> wf_dict d ->
  let s := sanitized sanitize_string d in
  let n := the_min_n self in
  acc (fst (get sanitize_string GetTopCounts self)) = NamedCounters s /\
  acc (fst (get sanitize_string GetCutoffCounts self)) = NamedCounters (cutoff s n) /\
  entries (cutoff s n) = filter (fun tc => n <=? snd tc) (entries s) /\
  ((forall name, In name (keys d) -> sanitize_string name = name) ->
   entries s = entries d /\
   ((forall tc, In tc (entries d) -> n <= snd tc) ->
    entries (cutoff s n) = entries d)).
Proof.
  intros H Hwf s n. simpl get.
  rewrite (GetTopCounts_get_named sanitize_string self d H).
  rewrite (GetCutoffCounts_get_named sanitize_string self d H).
  assert (Hcut : entries (cutoff s n) = filter (fun tc => n <=? snd tc) (entries s))
    by apply entries_cutoff, wf_sanitized.
  split; [|split; [|split]].
  - destruct self as [name fs [k|] mn tl a]; reflexivity.
  - reflexivity.
  - exact Hcut.
  - intros Hfix.
    assert (Hs : entries s = entries d) by now apply entries_sanitized_fixed.
    split; [exact Hs|]. intros Hall.
    rewrite Hcut, Hs. apply filter_all. intros tc Hin.
    apply Z.leb_le. now apply Hall.
Qed.

Lemma get_stores_derived_counters_witness :
  let self := mkmeasurement "CutoffBodyTerms" None None (Some 1) None
                (NamedCounters counters_abc) in
  let s := sanitized (fun x => x) counters_abc in
  acc (fst (get (fun x => x) GetTopCounts self)) = NamedCounters s /\
  acc (fst (get (fun x => x) GetCutoffCounts self)) = NamedCounters (cutoff s 1) /\
  entries (cutoff s 1) = filter (fun tc => 1 <=? snd tc) (entries s) /\
  ((forall name, In name (keys counters_abc) -> (fun x : string => x) name = name) ->
   entries s = entries counters_abc /\
   ((forall tc, In tc (entries counters_abc) -> 1 <= snd tc) ->
    entries (cutoff s 1) = entries counters_abc)).
Proof.
  apply (get_stores_derived_counters (fun x => x)
           (mkmeasurement "CutoffBodyTerms" None None (Some 1) None
              (NamedCounters counters_abc)) counters_abc).
  - reflexivity.
  - unfold wf_dict. distinct_keys.
Defined.

(** C3 as stated fails: after get of GetCutoffCounts (min_n at its
    default 3) the entry of "c", counted once, is gone from
    self.counters. *)
Lemma GetCutoffCounts_get_drops_counters :
  let self := a_measurement "CutoffBodyTerms" counters_abc in
  let self' := fst (get (fun s => s) GetCutoffCounts self) in
  acc self = NamedCounters counters_abc /\
  acc self' = NamedCounters (mkdict false [("b", 5)]) /\
  ~ same_counts (acc self') (acc self).
Proof.
  repeat split.
  intros H. specialize (H "c"). discriminate H.
Qed.

(** C4.  GetCutoffTopCounts.get never returns: the lookup of [get] on
    the unbound super object raises AttributeError (any measurement with
    counters), and a measurement without counters fails in get_init. *)
Theorem GetCutoffTopCounts_get_raises
  (sanitize_string : string -> string) (self : measurement) :
  exists e,
    snd (GetCutoffTopCounts_get sanitize_string self) = Error e /\
    forall d, acc self = NamedCounters d ->
      e = AttributeError "'super' object has no attribute 'get'".
Proof.
  unfold GetCutoffTopCounts_get, get_init, attr_counters.
  destruct (acc self) as [|c|d] eqn:E; simpl;
    eexists; (split; [reflexivity|]); intros d' Hd; congruence.
Qed.

(** The cutoff followed by the top counts, which is what the method is
    after, would give one row on a:2, b:5, c:1. *)
Example GetCutoffTopCounts_get_failing_input :
  let self := a_measurement "CutoffTopBodyTerms" counters_abc in
  snd (GetCutoffTopCounts_get (fun s => s) self) =
    Error (AttributeError "'super' object has no attribute 'get'") /\
  top_counts (cutoff (sanitized (fun s => s) counters_abc) 3) 20 = [(5, "b")].
Proof. split; reflexivity. Qed.

(** C7, as amended.  A measurement that inherits combine from
    MeasurementBase raises NotImplementedError with a fixed message, the
    same for every class, and is left as it was. *)
Theorem inherited_combine_raises (self other : measurement) :
  acc self = NoCounter ->
  combine self other = (self, Error (NotImplementedError combine_message)).
Proof. intros H. unfold combine. now rewrite H. Qed.

Lemma inherited_combine_raises_witness :
  let self := mkmeasurement "MeasurementBase" None None None None NoCounter in
  acc self = NoCounter /\
  combine self self = (self, Error (NotImplementedError combine_message)).
Proof.
  split; [reflexivity|].
  apply (inherited_combine_raises
           (mkmeasurement "MeasurementBase" None None None None NoCounter)).
  reflexivity.
Defined.

(** C7 as stated fails: the message does not contain the name of the
    class. *)
Lemma combine_message_omits_class :
  let self := mkmeasurement "MeasurementBase" None None None None NoCounter in
  snd (combine self self) = Error (NotImplementedError combine_message) /\
  is_substring (get_name self) combine_message = false.
Proof. split; reflexivity. Qed.

(** ** get_element *)

Lemma collect_OK_iff {A B : Type} (f : A -> result B) (l : list A) (bs : list B) :
  collect f l = OK bs <-> Forall2 (fun a b => f a = OK b) l bs.
Proof.
  revert bs. induction l as [|a l IH]; intros bs; simpl.
  - split.
    + intros [= <-]. constructor.
    + intros H. inversion H. reflexivity.
  - split.
    + destruct (f a) as [b|e] eqn:Ea; [|discriminate].
      destruct (collect f l) as [bs'|e] eqn:El; [|discriminate].
      intros [= <-]. constructor; [assumption|]. now apply IH.
    + intros H. inversion H as [|? b ? bs' Hb Hbs]; subst.
      rewrite Hb. apply IH in Hbs. now rewrite Hbs.
Qed.

Lemma collect_Error {A B : Type} (f : A -> result B) (l : list A) (e : exn) :
  collect f l = Error e -> exists a, In a l /\ f a = Error e.
Proof.
  induction l as [|a l IH]; simpl; [discriminate|].
  destruct (f a) as [b|e'] eqn:Ea.
  - destruct (collect f l) as [bs|e'']; [discriminate|].
    intros [= ->]. destruct IH as [a' [Hin Ha']]; [reflexivity|]. eauto.
  - intros [= ->]. eauto.
Qed.

Lemma get_element_step (data : json) (key : pykey) (new_key_path : list pykey) :
  new_key_path <> [] ->
  get_element data (key :: new_key_path) =
  (obj <- getitem data key ;;
   match obj with
   | JList os =>
       results <- collect (fun o => get_element o new_key_path) os ;;
       OK (JList results)
   | _ => get_element obj new_key_path
   end).
Proof. destruct new_key_path; [congruence | reflexivity]. Qed.

Lemma collect_first_Error {A B : Type} (f : A -> result B)
  (before : list A) (a : A) (after : list A) (e : exn) :
  Forall (fun x => exists b, f x = OK b) before -> f a = Error e ->
  collect f (before ++ a :: after) = Error e.
Proof.
  intros Hbefore Ha. induction Hbefore as [|x before [b Hx] _ IH]; simpl.
  - now rewrite Ha.
  - now rewrite Hx, IH.
Qed.





(** A KeyError raised by get_element carries one key of the path. *)
Lemma get_element_KeyError (key_path : list pykey) :
  forall data k, get_element data key_path = Error (KeyError k) -> In k key_path.
Proof.
  induction key_path as [|key rest IH]; intros data k; [discriminate|].
  assert (Hget : forall d, getitem d key = Error (KeyError k) -> key = k).
  { intros d. unfold getitem, seq_index.
    destruct d, key; try discriminate;
      repeat match goal with
             | |- context [match ?x with _ => _ end] => destruct x
             end; congruence. }
  destruct rest as [|key' rest'].
  - simpl. intros H. left. eauto.
  - rewrite get_element_step by discriminate.
    destruct (getitem data key) as [obj|e] eqn:E; cbn [bind].
    + intros H. right.
      destruct obj; try (now apply (IH _ _ H)).
      destruct (collect (fun o => get_element o (key' :: rest')) l) as [rs|e] eqn:Ec;
        cbn [bind] in H; [discriminate H|].
      injection H as ->.
      apply collect_Error in Ec as [o [_ Ho]]. now apply (IH _ _ Ho).
    + intros [= ->]. left. eauto.
Qed.

Lemma get_element_missing_key (d : list (string * json)) (k : string)
  (rest : list pykey) :
  assoc k d = None ->
  get_element (JDict d) (KStr k :: rest) = Error (KeyError (KStr k)).
Proof.
  intros H. destruct rest; simpl; now rewrite H.
Qed.

(** ** add_tweet and the filters *)

(** What the loop over the filters does, by its three outcomes. *)
Lemma run_filters_outcome (tweet : json) (fs : list filter_spec) :
  forall p,
    match run_filters tweet p fs with
    | (evs, OK true) => evs = passed_from p (length fs) /\ Forall (passes tweet) fs
    | (evs, OK false) =>
        exists k f, nth_error fs k = Some f /\ rejects tweet f /\
                    Forall (passes tweet) (firstn k fs) /\
                    evs = (passed_from p k ++ [EvCompare (p + k) false])%list
    | (evs, Error e) =>
        exists k f, nth_error fs k = Some f /\
                    get_element tweet (f_key_path f) = Error e /\
                    Forall (passes tweet) (firstn k fs) /\
                    evs = passed_from p k
    end.
Proof.
  induction fs as [|f fs IH]; intros p; cbn [run_filters].
  - split; [reflexivity | constructor].
  - destruct (get_element tweet (f_key_path f)) as [data|e] eqn:Eg.
    + destruct (f_comparator f data (f_value f)) eqn:Ec.
      * assert (Hf : passes tweet f) by (exists data; auto).
        specialize (IH (S p)).
        destruct (run_filters tweet (S p) fs) as [evs [[|]|e]].
        -- destruct IH as [-> Hall]. split; [reflexivity | now constructor].
        -- destruct IH as [k [g [Hk [Hg [Hall ->]]]]].
           exists (S k), g. repeat split; try assumption.
           ++ simpl. now constructor.
           ++ unfold passed_from. simpl. now rewrite Nat.add_succ_r.
        -- destruct IH as [k [g [Hk [Hg [Hall ->]]]]].
           exists (S k), g. repeat split; try assumption.
           simpl. now constructor.
      * exists 0%nat, f. repeat split.
        -- exists data; auto.
        -- constructor.
        -- now rewrite Nat.add_0_r.
    + exists 0%nat, f. repeat split; [assumption | constructor].
Qed.

Lemma passed_from_no_failure (p k i : nat) : ~ In (EvCompare i false) (passed_from p k).
Proof.
  unfold passed_from. intros H. apply in_map_iff in H as [j [Hj _]]. discriminate.
Qed.

Lemma passed_from_no_update (p k : nat) : ~ In EvUpdate (passed_from p k).
Proof.
  unfold passed_from. intros H. apply in_map_iff in H as [j [Hj _]]. discriminate.
Qed.

(** C5.  When in a call of add_tweet the comparison of some filter comes
    out false, update is not called and the measurement is returned as
    it was; the comparisons made are those of the filters before the
    failing one, in the order of self.filters and all passed, then the
    failing one, and no filter after it is evaluated. *)
Theorem add_tweet_failing_filter (update : method) (self : measurement) (tweet : json) :
  (exists i, In (EvCompare i false) (fst (add_tweet update self tweet))) ->
  snd (add_tweet update self tweet) = (self, OK tt) /\
  ~ In EvUpdate (fst (add_tweet update self tweet)) /\
  exists fs k f,
    filters self = Some fs /\ nth_error fs k = Some f /\
    Forall (passes tweet) (firstn k fs) /\ rejects tweet f /\
    fst (add_tweet update self tweet) =
      (passed_from 0 k ++ [EvCompare k false])%list.
Proof.
  unfold add_tweet. intros [i Hi].
  destruct (filters self) as [fs|] eqn:Efs.
  - pose proof (run_filters_outcome tweet fs 0%nat) as Hrun.
    destruct (run_filters tweet 0 fs) as [evs [[|]|e]]; simpl in *.
    + destruct Hrun as [-> _]. exfalso.
      apply in_app_or in Hi as [Hi|[Hi|[]]]; [|discriminate].
      now apply passed_from_no_failure in Hi.
    + destruct Hrun as [k [f [Hk [Hf [Hall ->]]]]].
      split; [reflexivity|]. split.
      * intros Hin. apply in_app_or in Hin as [Hin|[Hin|[]]]; [|discriminate].
        now apply passed_from_no_update in Hin.
      * exists fs, k, f. repeat split; assumption.
    + destruct Hrun as [k [f [_ [_ [_ ->]]]]]. exfalso.
      now apply passed_from_no_failure in Hi.
  - simpl in Hi. destruct Hi as [Hi|[]]. discriminate.
Qed.

Lemma add_tweet_failing_filter_witness :
  let self := filtered_counter [retweet_filter; actor_filter "name"] in
  snd (add_tweet failing_update self (a_post "1")) = (self, OK tt) /\
  ~ In EvUpdate (fst (add_tweet failing_update self (a_post "1"))) /\
  exists fs k f,
    filters self = Some fs /\ nth_error fs k = Some f /\
    Forall (passes (a_post "1")) (firstn k fs) /\ rejects (a_post "1") f /\
    fst (add_tweet failing_update self (a_post "1")) =
      (passed_from 0 k ++ [EvCompare k false])%list.
Proof.
  apply (add_tweet_failing_filter failing_update
           (filtered_counter [retweet_filter; actor_filter "name"]) (a_post "1")).
  exists 0%nat. simpl. left. reflexivity.
Defined.

(** A missing key raises the KeyError of that key. *)
Lemma get_element_key_absent (data : json) (key_path : list pykey) (k : string) :
  key_absent data key_path k ->
  get_element data key_path = Error (KeyError (KStr k)).
Proof.
  induction 1 as [d k rest Hk
                 |data key obj rest k Hobj Hnot Habs IH
                 |data key before o after rest k Hobj Hbefore Habs IH].
  - now apply get_element_missing_key.
  - assert (Hrest : rest <> []) by (destruct Habs; discriminate).
    rewrite get_element_step by assumption. rewrite Hobj. cbn [bind].
    destruct obj; try exact IH. exfalso. now apply (Hnot l).
  - assert (Hrest : rest <> []) by (destruct Habs; discriminate).
    rewrite get_element_step by assumption. rewrite Hobj. cbn [bind].
    now rewrite (collect_first_Error _ before o after _ Hbefore IH).
Qed.

(** C8, as amended.  When the filters before some filter pass and the
    resolution of that filter's path raises, add_tweet raises the same
    exception, after the comparisons of the earlier filters only; update
    is not called and the measurement is as it was.  When the resolution
    comes to a dict that lacks a key, the exception is the KeyError of
    that key: it carries the missing key, one of the keys of the path,
    and nothing of the path or of the tweet besides. *)
Theorem add_tweet_unresolved_filter
  (update : method) (self : measurement) (tweet : json)
  (fs : list filter_spec) (k : nat) (f : filter_spec) :
  filters self = Some fs ->
  nth_error fs k = Some f ->
  Forall (passes tweet) (firstn k fs) ->
  (forall e,
      get_element tweet (f_key_path f) = Error e ->
      add_tweet update self tweet = (passed_from 0 k, (self, Error e))) /\
  (forall key,
      key_absent tweet (f_key_path f) key ->
      get_element tweet (f_key_path f) = Error (KeyError (KStr key)) /\
      add_tweet update self tweet =
        (passed_from 0 k, (self, Error (KeyError (KStr key)))) /\
      In (KStr key) (f_key_path f)) /\
  ~ In EvUpdate (passed_from 0 k).
Proof.
  intros Hfs Hk Hall.
  assert (Hraise : forall e,
             get_element tweet (f_key_path f) = Error e ->
             add_tweet update self tweet = (passed_from 0 k, (self, Error e))).
  { intros e He.
    assert (Hrun : forall p, run_filters tweet p fs = (passed_from p k, Error e)).
    { clear Hfs. revert k Hk Hall.
      induction fs as [|g fs IH]; intros k Hk Hall p.
      - destruct k; discriminate.
      - destruct k as [|k]; cbn [run_filters].
        + injection Hk as ->. now rewrite He.
        + simpl in Hk, Hall. inversion Hall as [|? ? [data [Hd Hc]] Hall']; subst.
          rewrite Hd, Hc, (IH k Hk Hall' (S p)). reflexivity. }
    unfold add_tweet. now rewrite Hfs, Hrun. }
  split; [exact Hraise|]. split; [|apply passed_from_no_update].
  intros key Habs.
  pose proof (get_element_key_absent _ _ _ Habs) as He.
  split; [exact He|]. split; [now apply Hraise|].
  eapply get_element_KeyError. exact He.
Qed.

Lemma add_tweet_unresolved_filter_witness :
  let self := filtered_counter [retweet_filter; actor_filter "name"] in
  get_element a_share_of_nameless_actor (f_key_path (actor_filter "name")) =
    Error (KeyError (KStr "name")) /\
  add_tweet failing_update self a_share_of_nameless_actor =
    (passed_from 0 1, (self, Error (KeyError (KStr "name")))) /\
  In (KStr "name") (f_key_path (actor_filter "name")).
Proof.
  destruct (add_tweet_unresolved_filter failing_update
              (filtered_counter [retweet_filter; actor_filter "name"])
              a_share_of_nameless_actor
              [retweet_filter; actor_filter "name"] 1 (actor_filter "name"))
    as [_ [Habsent _]].
  - reflexivity.
  - reflexivity.
  - constructor; [|constructor].
    exists (JStr "share"). split; reflexivity.
  - apply (Habsent "name").
    apply absent_below with (obj := JDict [("id", JStr "id:twitter.com:7")]).
    + reflexivity.
    + discriminate.
    + apply absent_here. reflexivity.
Defined.

(** C8 as stated fails: two tweets of different ids, filtered on
    different paths, raise one and the same exception, which names
    neither the path nor the tweet; and behind a filter that rejects the
    tweet a filter with a missing key raises nothing. *)
Lemma add_tweet_KeyError_names_key_only :
  let raised field id :=
    snd (snd (add_tweet failing_update (filtered_counter [actor_filter field])
                (a_post id))) in
  raised "name" "1" = Error (KeyError (KStr "actor")) /\
  raised "id" "2" = Error (KeyError (KStr "actor")) /\
  (forall describe : result unit -> list pykey * string,
      ~ (describe (raised "name" "1") = (f_key_path (actor_filter "name"), "1") /\
         describe (raised "id" "2") = (f_key_path (actor_filter "id"), "2"))) /\
  snd (snd (add_tweet failing_update
              (filtered_counter [retweet_filter; actor_filter "name"])
              (a_post "1"))) = OK tt.
Proof.
  repeat split.
  intros describe [H1 H2]. vm_compute in H1, H2.
  rewrite H1 in H2. discriminate H2.
Qed.

(** ** Counting specified terms *)

Lemma add_tweet_admits (update : method) (self : measurement) (tweet : json) :
  if admits (filters self) tweet
  then snd (add_tweet update self tweet) = update self tweet
  else fst (snd (add_tweet update self tweet)) = self.
Proof.
  unfold admits, add_tweet. destruct (filters self) as [fs|]; [|reflexivity].
  destruct (run_filters tweet 0 fs) as [evs [[|]|e]]; reflexivity.
Qed.

Lemma for_each_invariant {A : Type} (P : measurement -> Prop)
  (body : A -> measurement -> measurement * result unit) (l : list A) :
  (forall a self, In a l -> P self -> P (fst (body a self))) ->
  forall self, P self -> P (fst (for_each body l self)).
Proof.
  induction l as [|a l IH]; intros Hbody self HP; simpl; [assumption|].
  pose proof (Hbody a self (or_introl eq_refl) HP) as Ha.
  destruct (body a self) as [self' [u|e]]; simpl in *; [|assumption].
  apply IH; [|assumption]. intros; apply Hbody; simpl; auto.
Qed.

Lemma add_tweets_invariant (P : measurement -> Prop) (update : method)
  (tweets : list json) :
  (forall tweet self, In tweet tweets -> P self ->
                      P (fst (snd (add_tweet update self tweet)))) ->
  forall self, P self -> P (fst (add_tweets update self tweets)).
Proof.
  induction tweets as [|tweet tweets IH]; intros Hstep self HP; simpl; [assumption|].
  pose proof (Hstep tweet self (or_introl eq_refl) HP) as Ht.
  destruct (snd (add_tweet update self tweet)) as [self' [u|e]]; simpl in *;
    [|assumption].
  apply IH; [|assumption]. intros; apply Hstep; simpl; auto.
Qed.

Section SpecifiedTerms.

Variable term_comparator : json -> string -> bool.
Variable get_tokens : json -> result (list json).
Variable fs : option (list filter_spec).
Variable terms : list string.
Variable term : string.

Local Abbreviation term_free := (without_term fs terms term).

Lemma increment_other (name : string) (self : measurement) :
  name <> term -> term_free self -> term_free (fst (increment name self)).
Proof.
  intros Hne (Hfs & Htl & d & Hd & Hnone). unfold increment, attr_counters.
  rewrite Hd.
  assert (Hset : forall v, dict_get term (dict_set name v d) = None).
  { intros v. rewrite dict_get_set.
    destruct (String.eqb_spec term name); [congruence | assumption]. }
  unfold dict_iadd.
  destruct (dict_get name d); [|destruct (has_default d)]; simpl;
    (split; [assumption|]); (split; [assumption|]);
    eexists; (split; [first [reflexivity | eassumption]|]); auto.
Qed.

Lemma count_token_unmatched (token : json) (self : measurement) :
  term_comparator token term = false ->
  term_free self -> term_free (fst (count_token term_comparator token self)).
Proof.
  intros Hno Hw. unfold count_token.
  destruct Hw as (Hfs & Htl & Hd). rewrite Htl.
  apply for_each_invariant; [|repeat split; assumption].
  intros name m _ Hm. unfold count_term.
  destruct (term_comparator token name) eqn:Ec; [|assumption].
  apply increment_other; [congruence | assumption].
Qed.

Lemma specified_update_unmatched (tweet : json) (self : measurement) :
  (forall tokens token, get_tokens tweet = OK tokens -> In token tokens ->
                        term_comparator token term = false) ->
  term_free self ->
  term_free (fst (specified_update term_comparator get_tokens self tweet)).
Proof.
  intros Hno Hw. unfold specified_update.
  destruct (get_tokens tweet) as [tokens|e]; [|assumption].
  apply for_each_invariant; [|assumption].
  intros token m Hin Hm. apply count_token_unmatched; [|assumption].
  now apply (Hno tokens).
Qed.

End SpecifiedTerms.

(** C10, as amended.  In a measurement counting specified terms, a
    term without an entry gets none as long as the comparator matches it
    with no token of the tweets handed to update: after the run the term
    is not a key of self.counters (it has no entry, not an entry of count
    0), and every row of Counters.get comes from the entry of some other
    name.  The rows are labelled with sanitized names: no row has the
    sanitized name of the term provided no other name has the same
    sanitized form. *)
Theorem specified_term_absent_until_matched
  (sanitize_string : string -> string)
  (term_comparator : json -> string -> bool)
  (get_tokens : json -> result (list json))
  (self : measurement) (tweets : list json)
  (terms : list string) (d0 : pydict) (term : string) :
  acc self = NamedCounters d0 ->
  term_list self = Some terms ->
  dict_get term d0 = None ->
  (forall tweet tokens token,
      In tweet tweets -> admits (filters self) tweet = true ->
      get_tokens tweet = OK tokens -> In token tokens ->
      term_comparator token term = false) ->
  exists d out,
    acc (fst (add_tweets (specified_update term_comparator get_tokens) self tweets))
      = NamedCounters d /\
    dict_get term d = None /\
    ~ In term (keys d) /\
    snd (Counters_get sanitize_string
           (fst (add_tweets (specified_update term_comparator get_tokens) self tweets)))
      = OK out /\
    (forall row, In row out ->
       exists name c, row = (c, sanitize_string name) /\ name <> term /\
                      In (name, c) (items d)) /\
    ((forall name, sanitize_string name = sanitize_string term -> name = term) ->
     forall c, ~ In (c, sanitize_string term) out).
Proof.
  intros Hacc Hterms Hnone Hno.
  set (update := specified_update term_comparator get_tokens).
  assert (Hinv : without_term (filters self) terms term
                   (fst (add_tweets update self tweets))).
  { apply add_tweets_invariant.
    - intros tweet m Hin Hm.
      pose proof (add_tweet_admits update m tweet) as Hadm.
      destruct Hm as (Hfs & Hm). rewrite Hfs in Hadm.
      destruct (admits (filters self) tweet) eqn:Ea.
      + rewrite Hadm. apply specified_update_unmatched.
        * intros tokens token Htok Hin'. now apply (Hno tweet tokens).
        * split; assumption.
      + rewrite Hadm. split; assumption.
    - repeat split; try assumption. eauto. }
  destruct Hinv as (_ & _ & d & Hd & Hterm).
  assert (Hkey : ~ In term (keys d)) by now apply assoc_None_iff.
  exists d, (map (fun nc => (snd nc, sanitize_string (fst nc))) (items d)).
  assert (Hrows : forall row,
             In row (map (fun nc => (snd nc, sanitize_string (fst nc))) (items d)) ->
             exists name c, row = (c, sanitize_string name) /\ name <> term /\
                            In (name, c) (items d)).
  { intros row Hrow. apply in_map_iff in Hrow as [[name c] [<- Hin]].
    exists name, c. repeat split; [|assumption].
    intros ->. apply Hkey. unfold keys. apply in_map_iff.
    exists (term, c). split; [reflexivity | assumption]. }
  split; [assumption|]. split; [assumption|]. split; [assumption|].
  split; [unfold Counters_get, attr_counters; now rewrite Hd|].
  split; [exact Hrows|].
  intros Hlabel c Hin.
  destruct (Hrows _ Hin) as [name [c' [Heq [Hne _]]]].
  injection Heq as _ Hsame. apply Hne. apply Hlabel. now symmetry.
Qed.

Lemma specified_term_absent_until_matched_witness :
  let update := specified_update eq_term (TokenizedBody_get_tokens (fun _ => true)) in
  exists d out,
    acc (fst (add_tweets update cat_dog_counters [tweet_cat_bird_cat])) = NamedCounters d /\
    dict_get "dog" d = None /\
    ~ In "dog" (keys d) /\
    snd (Counters_get (fun s => s)
           (fst (add_tweets update cat_dog_counters [tweet_cat_bird_cat]))) = OK out /\
    (forall row, In row out ->
       exists name c, row = (c, name) /\ name <> "dog" /\ In (name, c) (items d)) /\
    forall c, ~ In (c, "dog") out.
Proof.
  assert (Hlabel : forall name : string,
             (fun s : string => s) name = (fun s : string => s) "dog" -> name = "dog")
    by (intros name H; exact H).
  destruct (specified_term_absent_until_matched (fun s => s) eq_term
              (TokenizedBody_get_tokens (fun _ => true))
              cat_dog_counters [tweet_cat_bird_cat] ["cat"; "dog"] defaultdict_int "dog")
    as [d [out [Hacc [Hget [Hkey [Hout [Hrows Habsent]]]]]]].
  - reflexivity.
  - reflexivity.
  - reflexivity.
  - intros tweet tokens token [<-|[]] _ Htok Hin.
    vm_compute in Htok. injection Htok as <-.
    destruct Hin as [<-|[<-|[<-|[]]]]; reflexivity.
  - exists d, out. repeat split; try assumption. now apply Habsent.
Defined.

(** C10 as stated fails for a sanitize_string under which two terms have
    the same sanitized form: of the terms cat and #cat only #cat matches
    a token, and cat has no entry, yet with hash signs stripped the
    output has a row labelled cat. *)
Lemma specified_term_label_of_other_term :
  let update := specified_update eq_term (TokenizedBody_get_tokens (fun _ => true)) in
  let self' := fst (add_tweets update cat_hashcat_counters [tweet_hashcat_bird]) in
  TokenizedBody_get_tokens (fun _ => true) tweet_hashcat_bird =
    OK [JStr "#cat"; JStr "bird"] /\
  forallb (fun token => negb (eq_term token "cat")) [JStr "#cat"; JStr "bird"] = true /\
  acc self' = NamedCounters (mkdict true [("#cat", 1)]) /\
  snd (Counters_get strip_hash self') = OK [(1, "cat")].
Proof. repeat split. Qed.

(** The scenario of the specification: terms cat and dog, tokens cat,
    bird, cat.  The output has a row for cat and none for dog. *)
Example specified_terms_scenario :
  let update := SpecifiedBodyTermCounters_update (fun _ => true) eq_term in
  let self' := fst (add_tweets update cat_dog_counters [tweet_cat_bird_cat]) in
  acc self' = NamedCounters (mkdict true [("cat", 2)]) /\
  snd (Counters_get (fun s => s) self') = OK [(2, "cat")].
Proof. split; reflexivity. Qed.

(** ** The image enrichment *)

Section EnrichmentProperties.

Context {bytes image predictions probability : Type}.
Variable requests_get : json -> result (@ImageLabel.response bytes).
Variable Image_open : bytes -> result image.
Variable model_predict : image -> result predictions.
Variable k_decode_predictions :
  predictions -> Z -> list (list (string * string * probability)).
Variable str_probability : probability -> string.

Local Abbreviation enrichment_value :=
  (ImageLabel.enrichment_value requests_get Image_open model_predict
     k_decode_predictions str_probability).

Local Abbreviation get_image :=
  (ImageLabel._get_image_from_tweet requests_get Image_open).

Lemma get_img_url_no_entities (d : list (string * json)) (id : json) :
  assoc "twitter_entities" d = None -> assoc "id" d = Some id ->
  ImageLabel._get_img_url (JDict d) = OK JNull.
Proof.
  intros He Hid. unfold ImageLabel._get_img_url, ImageLabel.log_tweet_id.
  simpl. rewrite He. simpl. now rewrite Hid.
Qed.

Lemma get_image_no_url (tweet url id : json) :
  ImageLabel._get_img_url tweet = OK url -> truthy url = false ->
  getitem tweet (KStr "id") = OK id ->
  get_image tweet = OK None.
Proof.
  intros Hu Ht Hid. unfold get_image, ImageLabel._get_image_from_tweet.
  rewrite Hu. cbn [bind]. rewrite Ht. unfold ImageLabel.log_tweet_id.
  now rewrite Hid.
Qed.

Lemma get_image_download (tweet url : json) :
  ImageLabel._get_img_url tweet = OK url -> truthy url = true ->
  get_image tweet = ImageLabel._download_image requests_get Image_open url.
Proof.
  intros Hu Ht. unfold get_image, ImageLabel._get_image_from_tweet.
  rewrite Hu. cbn [bind]. now rewrite Ht.
Qed.

Lemma enrichment_value_of_image (tweet : json) :
  enrichment_value tweet =
  (img <- get_image tweet ;;
   match img with
   | Some img =>
       predictions <- ImageLabel._make_predictions model_predict
                        k_decode_predictions img ImageLabel.topk ;;
       OK (Some (ImageLabel._format_output str_probability predictions))
   | None => OK None
   end).
Proof. reflexivity. Qed.

(** C9, as amended.  Provided the decoder returns at most topk
    predictions per sample, enrichment_value returns None or a list of
    at most topk triples of strings.  A tweet without an image URL (and
    with an id, which is logged), in particular one without
    twitter_entities, gives None, and so does a response that is not ok.
    An exception raised by requests.get is raised by enrichment_value. *)
Theorem enrichment_value_outcomes (tweet : json) :
  (forall preds, Forall (fun l => Z.of_nat (length l) <= ImageLabel.topk)
                   (k_decode_predictions preds ImageLabel.topk)) ->
  (forall out, enrichment_value tweet = OK (Some out) ->
               Z.of_nat (length out) <= ImageLabel.topk) /\
  (forall url id,
      ImageLabel._get_img_url tweet = OK url -> truthy url = false ->
      getitem tweet (KStr "id") = OK id ->
      enrichment_value tweet = OK None) /\
  (forall d id,
      tweet = JDict d -> assoc "twitter_entities" d = None ->
      assoc "id" d = Some id ->
      enrichment_value tweet = OK None) /\
  (forall url response,
      ImageLabel._get_img_url tweet = OK url -> truthy url = true ->
      requests_get url = OK response -> ImageLabel.ok response = false ->
      enrichment_value tweet = OK None) /\
  (forall url e,
      ImageLabel._get_img_url tweet = OK url -> truthy url = true ->
      requests_get url = Error e ->
      enrichment_value tweet = Error e).
Proof.
  intros Hdecode. repeat split.
  - intros out. rewrite enrichment_value_of_image.
    destruct (get_image tweet) as [[img|]|e]; cbn [bind]; try discriminate.
    unfold ImageLabel._make_predictions.
    destruct (model_predict img) as [preds|e]; cbn [bind]; [|discriminate].
    specialize (Hdecode preds).
    destruct (k_decode_predictions preds ImageLabel.topk) as [|first rest];
      cbn [bind]; [discriminate|].
    intros [= <-]. unfold ImageLabel._format_output. rewrite length_map.
    now inversion Hdecode.
  - intros url id Hu Ht Hid. rewrite enrichment_value_of_image.
    now rewrite (get_image_no_url tweet url id Hu Ht Hid).
  - intros d id -> He Hid. rewrite enrichment_value_of_image.
    rewrite (get_image_no_url (JDict d) JNull id); try reflexivity.
    + now apply get_img_url_no_entities with (id := id).
    + simpl. now rewrite Hid.
  - intros url response Hu Ht Hr Hok. rewrite enrichment_value_of_image.
    rewrite (get_image_download tweet url Hu Ht).
    unfold ImageLabel._download_image. rewrite Hr. cbn [bind]. now rewrite Hok.
  - intros url e Hu Ht Hr. rewrite enrichment_value_of_image.
    rewrite (get_image_download tweet url Hu Ht).
    unfold ImageLabel._download_image. now rewrite Hr.
Qed.

End EnrichmentProperties.

Lemma enrichment_value_outcomes_witness :
  let enrichment_value :=
    ImageLabel.enrichment_value (http_ok 200) open_any predict_any decode_tabby str_any in
  enrichment_value tweet_with_media = OK (Some [("tabby", "0.9", "n02123045")]) /\
  (forall out, enrichment_value tweet_with_media = OK (Some out) ->
               Z.of_nat (length out) <= ImageLabel.topk).
Proof.
  split; [reflexivity|].
  apply (enrichment_value_outcomes (http_ok 200) open_any predict_any decode_tabby str_any tweet_with_media).
  intros preds. repeat constructor. simpl. unfold ImageLabel.topk. lia.
Defined.

(** The documented outcomes: a list for an image, None for a tweet
    without media and for an HTTP error. *)
Example enrichment_value_scenarios :
  ImageLabel.enrichment_value (http_ok 200) open_any predict_any decode_tabby str_any
    (a_post "1") = OK None /\
  ImageLabel.enrichment_value (http_ok 404) open_any predict_any decode_tabby str_any
    tweet_with_media = OK None.
Proof. split; reflexivity. Qed.

(** C9 as stated fails: when requests.get raises (the server cannot be
    reached), enrichment_value raises too instead of returning None. *)
Lemma enrichment_value_network_error_raises :
  ImageLabel._get_img_url tweet_with_media = OK (JStr "http://t.co/a.jpg") /\
  ImageLabel.enrichment_value unreachable open_any predict_any decode_tabby str_any
    tweet_with_media = Error (External "requests.exceptions.ConnectionError").
Proof. split; reflexivity. Qed.

(** An empty media list is not handled either: IndexError is not the
    KeyError that _get_img_url catches. *)
Example enrichment_value_empty_media :
  ImageLabel.enrichment_value (http_ok 200) open_any predict_any decode_tabby str_any
    (JDict [("id", JStr "1"); ("twitter_entities", JDict [("media", JList [])])])
  = Error IndexError.
Proof. reflexivity. Qed.

(** * Further properties *)

(** ** add_tweet: when update is called *)

(** X1.  add_tweet calls update exactly when every filter passes on the
    tweet: then the comparisons of all filters come first, in order, and
    update is called once, its outcome being that of add_tweet; otherwise
    update is not called and the measurement is as it was. *)
Theorem add_tweet_updates_iff_all_pass (update : method) (self : measurement)
  (tweet : json) :
  (all_pass self tweet ->
   add_tweet update self tweet =
     ((comparisons self ++ [EvUpdate])%list, update self tweet)) /\
  (~ all_pass self tweet ->
   ~ In EvUpdate (fst (add_tweet update self tweet)) /\
   fst (snd (add_tweet update self tweet)) = self).
Proof.
  unfold all_pass, comparisons, add_tweet.
  destruct (filters self) as [fs|]; [|split; [reflexivity | tauto]].
  pose proof (run_filters_outcome tweet fs 0%nat) as Hrun.
  destruct (run_filters tweet 0 fs) as [evs [[|]|e]].
  - destruct Hrun as [-> Hall]. split; [reflexivity | tauto].
  - destruct Hrun as [k [f [Hk [[data [Hd Hc]] [_ ->]]]]]. split.
    + intros Hall. exfalso.
      apply nth_error_In in Hk. rewrite Forall_forall in Hall.
      destruct (Hall f Hk) as [data' [Hd' Hc']]. congruence.
    + intros _. split; [|reflexivity]. simpl.
      intros Hin. apply in_app_or in Hin as [Hin|[Hin|[]]]; [|discriminate].
      now apply passed_from_no_update in Hin.
  - destruct Hrun as [k [f [Hk [He [_ ->]]]]]. split.
    + intros Hall. exfalso.
      apply nth_error_In in Hk. rewrite Forall_forall in Hall.
      destruct (Hall f Hk) as [data' [Hd' _]]. congruence.
    + intros _. split; [|reflexivity]. apply passed_from_no_update.
Qed.

(** ** The cutoff *)

(** X2.  The rows of GetCutoffCounts.get are the entries of the
    sanitized counters whose count is at least min_n: no row is below
    min_n and no such entry is missing. *)
Theorem GetCutoffCounts_get_rows (sanitize_string : string -> string)
  (self : measurement) (d : pydict) :
  acc self = NamedCounters d ->
  exists out,
    snd (GetCutoffCounts_get sanitize_string self) = OK out /\
    forall c name,
      In (c, name) out <->
      In (name, c) (entries (sanitized sanitize_string d)) /\ the_min_n self <= c.
Proof.
  intros H. rewrite (GetCutoffCounts_get_named sanitize_string self d H).
  eexists; split; [reflexivity|]. intros c name. unfold items.
  rewrite (entries_cutoff _ _ (wf_sanitized sanitize_string d)).
  rewrite in_map_iff. split.
  - intros [[n c'] [[= <- <-] Hin]]. apply filter_In in Hin as [Hin Hc].
    split; [assumption | now apply Z.leb_le].
  - intros [Hin Hc]. exists (name, c). split; [reflexivity|].
    apply filter_In. split; [assumption | now apply Z.leb_le].
Qed.

Lemma GetCutoffCounts_get_rows_witness :
  let self := a_measurement "CutoffBodyTerms" counters_abc in
  exists out,
    snd (GetCutoffCounts_get (fun s => s) self) = OK out /\
    forall c name,
      In (c, name) out <->
      In (name, c) (entries (sanitized (fun s => s) counters_abc)) /\
      the_min_n self <= c.
Proof.
  apply (GetCutoffCounts_get_rows (fun s => s)
           (a_measurement "CutoffBodyTerms" counters_abc) counters_abc).
  reflexivity.
Defined.

(** ** get_init: names with the same sanitized form *)

Lemma assoc_app {V : Type} (k : string) (l1 l2 : list (string * V)) :
  assoc k (l1 ++ l2) =
  match assoc k l1 with
  | Some v => Some v
  | None => assoc k l2
  end.
Proof.
  induction l1 as [|[k' v'] l1 IH]; simpl; [reflexivity|].
  now destruct (String.eqb k k').
Qed.

Lemma assoc_fold_set_pair (k : string) (l es : list (string * Z)) :
  assoc k (fold_left set_pair l es) =
  match assoc k (rev l) with
  | Some v => Some v
  | None => assoc k es
  end.
Proof.
  revert es. induction l as [|[k0 v0] l IH]; intros es; simpl; [reflexivity|].
  rewrite IH, assoc_app. unfold set_pair at 1. simpl.
  destruct (assoc k (rev l)); [reflexivity|].
  rewrite assoc_set_entry. now destruct (String.eqb k k0).
Qed.

(** In a dict comprehension the last pair of a key gives its value. *)
Lemma dict_get_dict_of_pairs (k : string) (l : list (string * Z)) :
  dict_get k (dict_of_pairs l) = assoc k (rev l).
Proof.
  unfold dict_get. rewrite entries_dict_of_pairs, assoc_fold_set_pair.
  now destruct (assoc k (rev l)).
Qed.

Lemma has_default_fold_dict_set (l : list (string * Z)) (d : pydict) :
  has_default (fold_left (fun d kv => dict_set (fst kv) (snd kv) d) l d) =
  has_default d.
Proof.
  revert d. induction l as [|kv l IH]; intros d; simpl; [reflexivity|].
  now rewrite IH.
Qed.

(** A comprehension gives a plain dict, not a defaultdict. *)
Lemma has_default_dict_of_pairs (l : list (string * Z)) :
  has_default (dict_of_pairs l) = false.
Proof. apply has_default_fold_dict_set. Qed.

(** X3.  get_init keeps one entry for every sanitized name; when several
    names have the same sanitized form, their counts are not added: the
    count stored is that of the last such name in the iteration order. *)
Theorem get_init_last_name_wins (sanitize_string : string -> string)
  (self : measurement) (d : pydict) :
  acc self = NamedCounters d ->
  exists d',
    get_init sanitize_string self = (set_acc (NamedCounters d') self, OK tt) /\
    wf_dict d' /\
    (forall label,
        dict_get label d' = assoc label (rev (sanitized_pairs sanitize_string d))) /\
    (forall label, In label (keys d') <-> In label (map sanitize_string (keys d))).
Proof.
  intros H. exists (sanitized sanitize_string d).
  split; [now apply get_init_named|]. split; [apply wf_sanitized|].
  assert (Hget : forall label,
             dict_get label (sanitized sanitize_string d) =
             assoc label (rev (sanitized_pairs sanitize_string d)))
    by (intros; apply dict_get_dict_of_pairs).
  split; [exact Hget|]. intros label.
  assert (Hkeys : map fst (rev (sanitized_pairs sanitize_string d)) =
                  rev (map sanitize_string (keys d))).
  { unfold sanitized_pairs, keys, items. rewrite map_rev, !map_map. reflexivity. }
  split.
  - intros Hin. apply in_rev. rewrite <- Hkeys.
    destruct (assoc label (rev (sanitized_pairs sanitize_string d))) eqn:E.
    + apply assoc_In in E. apply in_map_iff. exists (label, z). auto.
    + exfalso. rewrite <- Hget in E. apply assoc_None_iff in E. contradiction.
  - intros Hin. apply in_rev in Hin. rewrite <- Hkeys in Hin.
    destruct (dict_get label (sanitized sanitize_string d)) eqn:E.
    + apply assoc_In in E. apply in_map_iff. exists (label, z). auto.
    + exfalso. rewrite Hget in E. apply assoc_None_iff in E. contradiction.
Qed.

Lemma get_init_last_name_wins_witness :
  let self := a_measurement "TopBodyTerms" counters_cat_hashcat in
  exists d',
    get_init strip_hash self = (set_acc (NamedCounters d') self, OK tt) /\
    wf_dict d' /\
    (forall label,
        dict_get label d' = assoc label (rev (sanitized_pairs strip_hash counters_cat_hashcat))) /\
    (forall label, In label (keys d') <->
                   In label (map strip_hash (keys counters_cat_hashcat))).
Proof.
  apply (get_init_last_name_wins strip_hash
           (a_measurement "TopBodyTerms" counters_cat_hashcat) counters_cat_hashcat).
  reflexivity.
Defined.

(** Seven counts go in, five come out. *)
Example get_init_loses_counts :
  acc (fst (get_init strip_hash (a_measurement "TopBodyTerms" counters_cat_hashcat)))
  = NamedCounters (mkdict false [("cat", 5)]).
Proof. reflexivity. Qed.

(** ** Counters.combine: totals, order of the keys, growth *)

Lemma total_app (l1 l2 : list (string * Z)) : total (l1 ++ l2) = total l1 + total l2.
Proof. induction l1 as [|x l1 IH]; simpl; [reflexivity | rewrite IH; lia]. Qed.

Lemma total_set_entry (k : string) (v : Z) (l : list (string * Z)) :
  total (set_entry k v l) =
  total l + v - match assoc k l with Some old => old | None => 0 end.
Proof.
  induction l as [|[k' v'] l IH]; simpl; [lia|].
  destruct (String.eqb k k'); simpl; [lia | rewrite IH; lia].
Qed.

Lemma total_combine_step (d : pydict) (new : string * Z) :
  total (entries (combine_step d new)) = total (entries d) + snd new.
Proof.
  destruct new as [n c]. unfold combine_step, dict_in, dict_get. simpl.
  destruct (assoc n (entries d)) eqn:E; simpl; rewrite total_set_entry, E; lia.
Qed.

Lemma total_fold_combine (news : list (string * Z)) (d : pydict) :
  total (entries (fold_left combine_step news d)) = total (entries d) + total news.
Proof.
  revert d. induction news as [|new news IH]; intros d; cbn [fold_left total fold_right].
  - lia.
  - rewrite IH, total_combine_step. fold (total news). lia.
Qed.

Lemma keys_combine_step (d : pydict) (new : string * Z) :
  keys (combine_step d new) =
  if dict_in (fst new) d then keys d else (keys d ++ [fst new])%list.
Proof.
  destruct new as [n c]. unfold combine_step, dict_in, dict_get, keys. simpl.
  destruct (assoc n (entries d)) eqn:E; simpl; rewrite keys_set_entry, E; reflexivity.
Qed.

Lemma dict_in_combine_step (k : string) (d : pydict) (new : string * Z) :
  k <> fst new -> dict_in k (combine_step d new) = dict_in k d.
Proof.
  intros Hne. unfold dict_in. rewrite dict_get_combine_step.
  destruct (String.eqb_spec k (fst new)); [contradiction | reflexivity].
Qed.

Lemma keys_fold_combine (news : list (string * Z)) :
  NoDup (map fst news) ->
  forall d,
    keys (fold_left combine_step news d) =
    (keys d ++ filter (fun k => negb (dict_in k d)) (map fst news))%list.
Proof.
  induction news as [|new news IH]; intros Hnd d; cbn [fold_left map filter].
  - now rewrite app_nil_r.
  - inversion Hnd as [|? ? Hnot Hnd']; subst.
    rewrite (IH Hnd'), keys_combine_step.
    assert (Hfilter : filter (fun k => negb (dict_in k (combine_step d new))) (map fst news)
                      = filter (fun k => negb (dict_in k d)) (map fst news)).
    { apply filter_ext_in. intros k Hk. rewrite dict_in_combine_step; [reflexivity|].
      intros ->. contradiction. }
    rewrite Hfilter.
    destruct (dict_in (fst new) d); simpl; [reflexivity|].
    now rewrite <- app_assoc.
Qed.

(** X4.  Counters.combine conserves the counts: the sum of all counts
    after [self.combine(other)] is the sum of those of self and of other. *)
Theorem Counters_combine_total (self other : measurement) (d d' : pydict) :
  acc self = NamedCounters d -> acc other = NamedCounters d' ->
  exists r,
    acc (combined self other) = NamedCounters r /\
    total (items r) = total (items d) + total (items d').
Proof.
  intros Hs Ho.
  destruct (combine_named self other d d' Hs Ho) as [_ [r [Hr ->]]].
  exists (combine_counters d d'). split; [assumption|].
  apply total_fold_combine.
Qed.

Lemma Counters_combine_total_witness :
  let self := a_measurement "AllBodyTerms" counters_abc in
  let other := a_measurement "AllBodyTerms" counters_zab in
  exists r,
    acc (combined self other) = NamedCounters r /\
    total (items r) = total (items counters_abc) + total (items counters_zab).
Proof.
  apply (Counters_combine_total (a_measurement "AllBodyTerms" counters_abc)
           (a_measurement "AllBodyTerms" counters_zab) counters_abc counters_zab);
    reflexivity.
Defined.

(** X5.  After [self.combine(other)] the names of self are iterated
    first, in the order they had, then the names that only other has, in
    the order of other. *)
Theorem Counters_combine_key_order (self other : measurement) (d d' : pydict) :
  acc self = NamedCounters d -> acc other = NamedCounters d' -> wf_dict d' ->
  exists r,
    acc (combined self other) = NamedCounters r /\
    keys r = (keys d ++ filter (fun k => negb (dict_in k d)) (keys d'))%list.
Proof.
  intros Hs Ho Hwf.
  destruct (combine_named self other d d' Hs Ho) as [_ [r [Hr ->]]].
  exists (combine_counters d d'). split; [assumption|].
  now apply keys_fold_combine.
Qed.

Lemma Counters_combine_key_order_witness :
  let self := a_measurement "AllBodyTerms" counters_abc in
  let other := a_measurement "AllBodyTerms" counters_zab in
  exists r,
    acc (combined self other) = NamedCounters r /\
    keys r = (keys counters_abc ++
              filter (fun k => negb (dict_in k counters_abc)) (keys counters_zab))%list.
Proof.
  apply (Counters_combine_key_order (a_measurement "AllBodyTerms" counters_abc)
           (a_measurement "AllBodyTerms" counters_zab) counters_abc counters_zab);
    try reflexivity.
  unfold wf_dict. distinct_keys.
Defined.

(** X6.  Counters.combine removes no name, and when the counts of other
    are not negative the count of no name of self goes down. *)
Theorem Counters_combine_grows (self other : measurement) (d d' : pydict) :
  acc self = NamedCounters d -> acc other = NamedCounters d' -> wf_dict d' ->
  (forall name c, dict_get name d' = Some c -> 0 <= c) ->
  exists r,
    acc (combined self other) = NamedCounters r /\
    forall name c, dict_get name d = Some c ->
                   exists c', dict_get name r = Some c' /\ c <= c'.
Proof.
  intros Hs Ho Hwf Hpos.
  destruct (combine_named self other d d' Hs Ho) as [_ [r [Hr ->]]].
  exists (combine_counters d d'). split; [assumption|].
  intros name c Hc. rewrite dict_get_combine_counters by assumption.
  rewrite Hc. destruct (dict_get name d') as [c'|] eqn:E; simpl.
  - exists (c + c'). split; [reflexivity|]. specialize (Hpos name c' E). lia.
  - exists c. split; [reflexivity | lia].
Qed.

Lemma Counters_combine_grows_witness :
  let self := a_measurement "AllBodyTerms" counters_abc in
  let other := a_measurement "AllBodyTerms" counters_zab in
  exists r,
    acc (combined self other) = NamedCounters r /\
    forall name c, dict_get name counters_abc = Some c ->
                   exists c', dict_get name r = Some c' /\ c <= c'.
Proof.
  apply (Counters_combine_grows (a_measurement "AllBodyTerms" counters_abc)
           (a_measurement "AllBodyTerms" counters_zab) counters_abc counters_zab);
    try reflexivity.
  - unfold wf_dict. distinct_keys.
  - intros name c. unfold dict_get. simpl.
    repeat match goal with
           | |- context [String.eqb ?a ?b] => destruct (String.eqb a b)
           end; intros [= <-]; lia.
Defined.

(** ** GetTopCounts.get: how many rows, and which *)

Lemma length_sorted_by_count (l : list (string * Z)) :
  length (sorted_by_count l) = length l.
Proof. apply Permutation_length, sorted_by_count_perm. Qed.

Lemma StronglySorted_app_inv {A : Type} (R : A -> A -> Prop) (l1 l2 : list A) :
  StronglySorted R (l1 ++ l2) ->
  forall x y, In x l1 -> In y l2 -> R x y.
Proof.
  induction l1 as [|a l1 IH]; simpl; intros Hs x y Hx Hy; [contradiction|].
  apply StronglySorted_inv in Hs as [Hs Ha].
  destruct Hx as [<-|Hx].
  - rewrite Forall_forall in Ha. apply Ha, in_or_app. now right.
  - now apply IH.
Qed.

(** X7.  With a top_k that is not negative GetTopCounts.get returns
    top_k rows, or all of them when the sanitized counters have fewer
    names. *)
Theorem GetTopCounts_get_length (sanitize_string : string -> string)
  (self : measurement) (d : pydict) :
  acc self = NamedCounters d -> 0 <= the_top_k self ->
  exists out,
    snd (GetTopCounts_get sanitize_string self) = OK out /\
    length out = Nat.min (Z.to_nat (the_top_k self))
                   (length (items (sanitized sanitize_string d))).
Proof.
  intros H Hk. rewrite (GetTopCounts_get_named sanitize_string self d H).
  eexists; split; [reflexivity|].
  unfold top_counts, slice_to. rewrite length_map.
  destruct (Z.ltb_spec (the_top_k self) 0); [lia|].
  now rewrite length_firstn, length_rev, length_sorted_by_count.
Qed.

Lemma GetTopCounts_get_length_witness :
  let self := mkmeasurement "TopBodyTerms" None (Some 2) None None
                (NamedCounters counters_abc) in
  exists out,
    snd (GetTopCounts_get (fun s => s) self) = OK out /\
    length out = Nat.min (Z.to_nat (the_top_k self))
                   (length (items (sanitized (fun s => s) counters_abc))).
Proof.
  apply (GetTopCounts_get_length (fun s => s)
           (mkmeasurement "TopBodyTerms" None (Some 2) None None
              (NamedCounters counters_abc)) counters_abc).
  - reflexivity.
  - unfold the_top_k. simpl. lia.
Defined.

(** X8.  The rows of GetTopCounts.get are top ones: the rows returned
    and the rows left out are together the entries of the sanitized
    counters, and no row left out has a higher count than a row returned. *)
Theorem GetTopCounts_get_keeps_highest (sanitize_string : string -> string)
  (self : measurement) (d : pydict) :
  acc self = NamedCounters d ->
  exists out left_out,
    snd (GetTopCounts_get sanitize_string self) = OK out /\
    Permutation (out ++ left_out) (map swap (items (sanitized sanitize_string d))) /\
    forall kept other, In kept out -> In other left_out -> fst other <= fst kept.
Proof.
  intros H. rewrite (GetTopCounts_get_named sanitize_string self d H).
  unfold top_counts.
  set (s := rev (sorted_by_count (items (sanitized sanitize_string d)))).
  destruct (slice_to_prefix s (the_top_k self)) as [n Hn].
  exists (map swap (firstn n s)), (map swap (skipn n s)).
  split; [simpl; now rewrite Hn|]. split.
  - rewrite <- map_app, firstn_skipn. apply Permutation_map. unfold s.
    rewrite <- Permutation_rev. apply sorted_by_count_perm.
  - assert (Hs : StronglySorted count_ge (map swap (firstn n s) ++ map swap (skipn n s))).
    { rewrite <- map_app, firstn_skipn. unfold s.
      apply StronglySorted_map with (R := fun x y => count_le y x).
      - intros x y Hxy. exact Hxy.
      - apply StronglySorted_rev, sorted_by_count_sorted. }
    intros kept other Hk Ho.
    exact (StronglySorted_app_inv count_ge _ _ Hs kept other Hk Ho).
Qed.

Lemma GetTopCounts_get_keeps_highest_witness :
  let self := mkmeasurement "TopBodyTerms" None (Some 2) None None
                (NamedCounters counters_abc) in
  exists out left_out,
    snd (GetTopCounts_get (fun s => s) self) = OK out /\
    Permutation (out ++ left_out)
      (map swap (items (sanitized (fun s => s) counters_abc))) /\
    forall kept other, In kept out -> In other left_out -> fst other <= fst kept.
Proof.
  apply (GetTopCounts_get_keeps_highest (fun s => s)
           (mkmeasurement "TopBodyTerms" None (Some 2) None None
              (NamedCounters counters_abc)) counters_abc).
  reflexivity.
Defined.

(** ** get_element: lists of lists *)

Lemma get_element_list_str_key (l : list json) (k : string) (rest : list pykey) :
  get_element (JList l) (KStr k :: rest) = Error TypeError.
Proof. destruct rest; reflexivity. Qed.

Lemma Forall2_In_left {A B : Type} (P : A -> B -> Prop) (l : list A) (l' : list B) (a : A) :
  Forall2 P l l' -> In a l -> exists b, P a b.
Proof.
  induction 1 as [|x y l l' Hxy Hl IH]; simpl; [contradiction|].
  intros [<-|Hin]; eauto.
Qed.

(** X9.  The fan-out goes one level deep: when the list under a key has
    an element that is itself a list and the next key is a string,
    get_element raises instead of resolving the key inside the inner list. *)
Theorem get_element_list_of_lists_raises (data : json) (key : pykey)
  (k : string) (rest : list pykey) (os inner : list json) :
  getitem data key = OK (JList os) -> In (JList inner) os ->
  exists e, get_element data (key :: KStr k :: rest) = Error e.
Proof.
  intros Hobj Hin. rewrite get_element_step by discriminate.
  rewrite Hobj. cbn [bind].
  destruct (collect (fun o => get_element o (KStr k :: rest)) os) as [rs|e] eqn:E;
    cbn [bind]; [|eauto].
  apply collect_OK_iff in E.
  destruct (Forall2_In_left _ _ _ _ E Hin) as [r Hr].
  rewrite get_element_list_str_key in Hr. discriminate Hr.
Qed.

Lemma get_element_list_of_lists_raises_witness :
  let data := JDict [("geo", JList [JList [JDict [("x", JNum 1)]]])] in
  exists e, get_element data [KStr "geo"; KStr "x"] = Error e.
Proof.
  apply (get_element_list_of_lists_raises
           (JDict [("geo", JList [JList [JDict [("x", JNum 1)]]])])
           (KStr "geo") "x" [] [JList [JDict [("x", JNum 1)]]] [JDict [("x", JNum 1)]]).
  - reflexivity.
  - left. reflexivity.
Defined.

(** ** Counting specified terms: the counts *)

Lemma set_acc_same (self : measurement) (a : accumulator) :
  acc self = a -> set_acc a self = self.
Proof. destruct self. simpl. now intros <-. Qed.

Lemma bump_bump (o : option Z) (a b : nat) : bump (bump o a) b = bump o (a + b).
Proof. destruct o, a, b; simpl; try rewrite Nat.add_0_r; f_equal; lia. Qed.

Section SpecifiedCounts.

Variable term_comparator : json -> string -> bool.

Lemma increment_defaultdict (name : string) (self : measurement) (d : pydict) :
  acc self = NamedCounters d -> has_default d = true ->
  exists d1,
    increment name self = (set_acc (NamedCounters d1) self, OK tt) /\
    has_default d1 = true /\
    forall t, dict_get t d1 = bump (dict_get t d) (if String.eqb t name then 1 else 0).
Proof.
  intros Hacc Hdef. unfold increment, attr_counters, dict_iadd. rewrite Hacc.
  destruct (dict_get name d) as [v|] eqn:E; [|rewrite Hdef];
    (eexists; split; [reflexivity|]; split; [exact Hdef|]);
    intros t; rewrite dict_get_set;
    destruct (String.eqb_spec t name) as [->|Hne]; try reflexivity;
    rewrite E; simpl; f_equal; lia.
Qed.

Lemma count_terms_defaultdict (token : json) (terms : list string) :
  forall (self : measurement) (d : pydict),
    acc self = NamedCounters d -> has_default d = true ->
    exists d1,
      for_each (count_term term_comparator token) terms self =
        (set_acc (NamedCounters d1) self, OK tt) /\
      has_default d1 = true /\
      forall t, dict_get t d1 =
                bump (dict_get t d)
                  (if term_comparator token t then count_occ string_dec terms t else 0).
Proof.
  induction terms as [|term terms IH]; intros self d Hacc Hdef.
  - exists d. split; [simpl; now rewrite set_acc_same|]. split; [assumption|].
    intros t. simpl. now destruct (term_comparator token t).
  - cbn [for_each]. unfold count_term at 1.
    destruct (term_comparator token term) eqn:Ec.
    + destruct (increment_defaultdict term self d Hacc Hdef) as [d0 [-> [Hdef0 Hget0]]].
      destruct (IH (set_acc (NamedCounters d0) self) d0 eq_refl Hdef0)
        as [d1 [-> [Hdef1 Hget1]]].
      exists d1. split; [reflexivity|]. split; [assumption|].
      intros t. rewrite Hget1, Hget0, bump_bump. f_equal. simpl.
      destruct (string_dec term t) as [->|Hne].
      * rewrite String.eqb_refl, Ec. reflexivity.
      * destruct (String.eqb_spec t term); [congruence|].
        now destruct (term_comparator token t).
    + destruct (IH self d Hacc Hdef) as [d1 [-> [Hdef1 Hget1]]].
      exists d1. split; [reflexivity|]. split; [assumption|].
      intros t. rewrite Hget1. f_equal. simpl.
      destruct (string_dec term t) as [->|Hne]; [now rewrite Ec | reflexivity].
Qed.

Lemma count_tokens_defaultdict (terms : list string) (tokens : list json) :
  forall (self : measurement) (d : pydict),
    acc self = NamedCounters d -> has_default d = true ->
    term_list self = Some terms ->
    exists d1,
      for_each (count_token term_comparator) tokens self =
        (set_acc (NamedCounters d1) self, OK tt) /\
      has_default d1 = true /\
      forall t, dict_get t d1 =
                bump (dict_get t d) (term_hits term_comparator tokens terms t).
Proof.
  induction tokens as [|token tokens IH]; intros self d Hacc Hdef Hterms.
  - exists d. split; [simpl; now rewrite set_acc_same|]. split; [assumption|].
    intros t. reflexivity.
  - cbn [for_each]. unfold count_token at 1. rewrite Hterms.
    destruct (count_terms_defaultdict token terms self d Hacc Hdef)
      as [d0 [-> [Hdef0 Hget0]]].
    destruct (IH (set_acc (NamedCounters d0) self) d0 eq_refl Hdef0 Hterms)
      as [d1 [-> [Hdef1 Hget1]]].
    exists d1. split; [reflexivity|]. split; [assumption|].
    intros t. rewrite Hget1, Hget0, bump_bump. f_equal.
    unfold term_hits. cbn [filter].
    destruct (term_comparator token t); cbn [length]; lia.
Qed.

End SpecifiedCounts.

(** X10.  On a measurement whose counters are a defaultdict, update
    succeeds once the tokens are there, and the count of every term goes
    up by one for each token it matches (times the occurrences of the
    term in term_list); a term that matches no token keeps its count, or
    keeps having none. *)
Theorem specified_update_counts
  (term_comparator : json -> string -> bool)
  (get_tokens : json -> result (list json))
  (self : measurement) (tweet : json)
  (d : pydict) (terms : list string) (tokens : list json) :
  acc self = NamedCounters d -> has_default d = true ->
  term_list self = Some terms ->
  get_tokens tweet = OK tokens ->
  exists d',
    specified_update term_comparator get_tokens self tweet =
      (set_acc (NamedCounters d') self, OK tt) /\
    forall term,
      dict_get term d' =
      bump (dict_get term d) (term_hits term_comparator tokens terms term).
Proof.
  intros Hacc Hdef Hterms Htokens. unfold specified_update. rewrite Htokens.
  destruct (count_tokens_defaultdict term_comparator terms tokens self d
              Hacc Hdef Hterms) as [d1 [Hrun [_ Hget]]].
  exists d1. split; assumption.
Qed.

Lemma specified_update_counts_witness :
  exists d',
    specified_update eq_term (TokenizedBody_get_tokens (fun _ => true))
      cat_dog_counters tweet_cat_bird_cat =
      (set_acc (NamedCounters d') cat_dog_counters, OK tt) /\
    forall term,
      dict_get term d' =
      bump (dict_get term defaultdict_int)
        (term_hits eq_term [JStr "cat"; JStr "bird"; JStr "cat"] ["cat"; "dog"] term).
Proof.
  apply (specified_update_counts eq_term (TokenizedBody_get_tokens (fun _ => true))
           cat_dog_counters tweet_cat_bird_cat defaultdict_int ["cat"; "dog"]
           [JStr "cat"; JStr "bird"; JStr "cat"]);
    reflexivity.
Defined.

(** ** The counters after a specialised get *)

Lemma dict_get_dict_of_pairs_None (k : string) (l : list (string * Z)) :
  ~ In k (map fst l) -> dict_get k (dict_of_pairs l) = None.
Proof.
  intros Hnot. rewrite dict_get_dict_of_pairs. apply assoc_None_iff.
  rewrite map_rev. intros Hin. apply Hnot. now apply in_rev.
Qed.

Lemma keys_sanitized_pairs (sanitize_string : string -> string) (d : pydict) :
  map fst (sanitized_pairs sanitize_string d) = map sanitize_string (keys d).
Proof. unfold sanitized_pairs, keys, items. rewrite !map_map. reflexivity. Qed.

Lemma dict_get_sanitized_None (sanitize_string : string -> string)
  (d : pydict) (name : string) :
  ~ In name (map sanitize_string (keys d)) ->
  dict_get name (sanitized sanitize_string d) = None.
Proof.
  intros Hnot. apply dict_get_dict_of_pairs_None.
  change (~ In name (map fst (sanitized_pairs sanitize_string d))).
  now rewrite keys_sanitized_pairs.
Qed.

Lemma dict_get_cutoff_None (d : pydict) (n : Z) (name : string) :
  dict_get name d = None -> dict_get name (cutoff d n) = None.
Proof.
  intros Hnone. apply dict_get_dict_of_pairs_None.
  apply assoc_None_iff in Hnone. intros Hin. apply Hnone.
  apply in_map_iff in Hin as [x [Hx Hin]]. apply filter_In in Hin as [Hin _].
  apply in_map_iff. eauto.
Qed.

(** X11.  The specialised get methods leave a plain dict in
    self.counters: after any of them, [self.counters[name] += 1] for a
    name that is not the sanitized form of a counted name raises KeyError
    and changes nothing, where before it made the entry. *)
Theorem increment_after_get_raises (sanitize_string : string -> string)
  (v : view) (self : measurement) (d : pydict) (name : string) :
  acc self = NamedCounters d ->
  ~ In name (map sanitize_string (keys d)) ->
  increment name (fst (get sanitize_string v self)) =
    (fst (get sanitize_string v self), Error (KeyError (KStr name))).
Proof.
  intros Hacc Hname.
  pose proof (dict_get_sanitized_None sanitize_string d name Hname) as Hnone.
  assert (Hplain : forall d1,
             acc (fst (get sanitize_string v self)) = NamedCounters d1 ->
             has_default d1 = false -> dict_get name d1 = None ->
             increment name (fst (get sanitize_string v self)) =
               (fst (get sanitize_string v self), Error (KeyError (KStr name)))).
  { intros d1 H1 Hdef H. unfold increment, attr_counters, dict_iadd.
    now rewrite H1, H, Hdef. }
  destruct v; unfold get in *.
  - apply (Hplain (sanitized sanitize_string d)).
    + rewrite (GetTopCounts_get_named sanitize_string self d Hacc).
      destruct self as [nm fs [k|] mn tl a]; reflexivity.
    + apply has_default_dict_of_pairs.
    + exact Hnone.
  - apply (Hplain (cutoff (sanitized sanitize_string d) (the_min_n self))).
    + now rewrite (GetCutoffCounts_get_named sanitize_string self d Hacc).
    + apply has_default_dict_of_pairs.
    + now apply dict_get_cutoff_None.
  - apply (Hplain (sanitized sanitize_string d)).
    + unfold GetCutoffTopCounts_get.
      rewrite (get_init_named sanitize_string self d Hacc).
      destruct self as [nm fs [k|] mn tl a]; reflexivity.
    + apply has_default_dict_of_pairs.
    + exact Hnone.
Qed.

Lemma increment_after_get_raises_witness :
  let self := a_measurement "TopBodyTerms" counters_abc in
  snd (increment "d" self) = OK tt /\
  increment "d" (fst (get (fun s => s) GetTopCounts self)) =
    (fst (get (fun s => s) GetTopCounts self), Error (KeyError (KStr "d"))).
Proof.
  split; [reflexivity|].
  apply (increment_after_get_raises (fun s => s) GetTopCounts
           (a_measurement "TopBodyTerms" counters_abc) counters_abc "d").
  - reflexivity.
  - simpl. intuition discriminate.
Defined.

(** ** get_tokens of TokenizedBody and TokenizedBio *)

(** X12.  Every token returned by get_tokens has passed token_ok. *)
Theorem tokenized_get_tokens_all_ok (token_ok : json -> bool)
  (nlp nltk : string) (tweet : json) (tokens : list json) :
  tokenized_get_tokens token_ok nlp nltk tweet = OK tokens ->
  Forall (fun token => token_ok token = true) tokens.
Proof.
  unfold tokenized_get_tokens.
  destruct (getitem tweet (KStr "enrichments")) as [enrichments|e];
    cbn [bind]; [|discriminate].
  destruct (contains nlp enrichments) as [has_nlp|e]; cbn [bind]; [|discriminate].
  match goal with
  | |- bind ?chosen _ = _ -> _ => destruct chosen as [chosen_tokens|e]
  end; cbn [bind]; [|discriminate].
  intros [= <-]. apply Forall_forall. intros token Hin.
  now apply filter_In in Hin.
Qed.

Lemma tokenized_get_tokens_all_ok_witness :
  TokenizedBody_get_tokens not_full_stop tweet_two_tokenizations =
    OK [JStr "a"; JStr "cat"] /\
  Forall (fun token => not_full_stop token = true) [JStr "a"; JStr "cat"].
Proof.
  split; [reflexivity|].
  apply (tokenized_get_tokens_all_ok not_full_stop
           "BodyNLPEnrichment" "NLTKSpaceTokenizeBody" tweet_two_tokenizations).
  reflexivity.
Defined.

(** X13.  Which tokenization get_tokens reads, on a tweet whose
    enrichments are a dict: the sentences of the NLP enrichment when it
    is there, flattened in order, whether or not the NLTK one is there
    too; the NLTK tokens when only they are there; and a KeyError when
    neither is. *)
Theorem tokenized_get_tokens_choice (token_ok : json -> bool) (nlp nltk : string)
  (d e : list (string * json)) :
  assoc "enrichments" d = Some (JDict e) ->
  (forall body sentences per_sentence,
      assoc nlp e = Some (JDict body) ->
      assoc "sentences" body = Some (JList sentences) ->
      collect iter sentences = OK per_sentence ->
      tokenized_get_tokens token_ok nlp nltk (JDict d) =
        OK (filter token_ok (concat per_sentence))) /\
  (forall tokens,
      assoc nlp e = None -> assoc nltk e = Some (JList tokens) ->
      tokenized_get_tokens token_ok nlp nltk (JDict d) = OK (filter token_ok tokens)) /\
  (assoc nlp e = None -> assoc nltk e = None ->
   tokenized_get_tokens token_ok nlp nltk (JDict d) =
     Error (KeyError (KStr "No NLP enrichment found!"))).
Proof.
  intros He. unfold tokenized_get_tokens, getitem, contains. rewrite He.
  cbn [bind]. repeat split.
  - intros body sentences per_sentence Hn Hs Hc.
    rewrite Hn. cbn [bind]. rewrite Hs. cbn [bind iter]. now rewrite Hc.
  - intros tokens Hn Hk. rewrite Hn. cbn [bind]. rewrite Hk. reflexivity.
  - intros Hn Hk. rewrite Hn. cbn [bind]. rewrite Hk. reflexivity.
Qed.

Lemma tokenized_get_tokens_choice_witness :
  TokenizedBody_get_tokens (fun _ => true) tweet_two_tokenizations =
    OK (filter (fun _ => true)
          (concat [[JStr "a"; JStr "cat"]; [JStr "."]])).
Proof.
  destruct (tokenized_get_tokens_choice (fun _ => true)
              "BodyNLPEnrichment" "NLTKSpaceTokenizeBody"
              [("id", JStr "1");
               ("enrichments",
                JDict [("NLTKSpaceTokenizeBody", JList [JStr "a"; JStr "cat."]);
                       ("BodyNLPEnrichment",
                        JDict [("sentences",
                                JList [JList [JStr "a"; JStr "cat"];
                                       JList [JStr "."]])])])]
              [("NLTKSpaceTokenizeBody", JList [JStr "a"; JStr "cat."]);
               ("BodyNLPEnrichment",
                JDict [("sentences",
                        JList [JList [JStr "a"; JStr "cat"]; JList [JStr "."]])])]
              eq_refl) as [Hnlp _].
  apply (Hnlp [("sentences", JList [JList [JStr "a"; JStr "cat"]; JList [JStr "."]])]
           [JList [JStr "a"; JStr "cat"]; JList [JStr "."]]
           [[JStr "a"; JStr "cat"]; [JStr "."]]);
    reflexivity.
Defined.

(** ** Calling get again *)

Lemma pydict_ext (d e : pydict) :
  has_default d = has_default e -> entries d = entries e -> d = e.
Proof. destruct d, e. simpl. now intros -> ->. Qed.

Section GetAgain.

Variable sanitize_string : string -> string.
Hypothesis sanitize_idempotent :
  forall name, sanitize_string (sanitize_string name) = sanitize_string name.

Lemma keys_sanitized_fixed (d : pydict) (name : string) :
  In name (keys (sanitized sanitize_string d)) -> sanitize_string name = name.
Proof.
  intros Hin.
  destruct (in_dec string_dec name (map sanitize_string (keys d))) as [Hyes|Hno].
  - apply in_map_iff in Hyes as [x [<- _]]. apply sanitize_idempotent.
  - exfalso. apply dict_get_sanitized_None in Hno.
    apply assoc_None_iff in Hno. contradiction.
Qed.

(** A plain dict of names that sanitize_string leaves alone is
    unchanged by get_init's comprehension. *)
Lemma sanitized_plain_fixed (d : pydict) :
  has_default d = false -> wf_dict d ->
  (forall name, In name (keys d) -> sanitize_string name = name) ->
  sanitized sanitize_string d = d.
Proof.
  intros Hdef Hwf Hfix. apply pydict_ext.
  - rewrite Hdef. apply has_default_dict_of_pairs.
  - now apply entries_sanitized_fixed.
Qed.

Lemma sanitized_sanitized (d : pydict) :
  sanitized sanitize_string (sanitized sanitize_string d) =
  sanitized sanitize_string d.
Proof.
  apply sanitized_plain_fixed.
  - apply has_default_dict_of_pairs.
  - apply wf_sanitized.
  - apply keys_sanitized_fixed.
Qed.

Lemma cutoff_cutoff (d : pydict) (n : Z) :
  wf_dict d -> cutoff (cutoff d n) n = cutoff d n.
Proof.
  intros Hwf. apply pydict_ext.
  - transitivity false; [|symmetry]; apply has_default_dict_of_pairs.
  - rewrite (entries_cutoff (cutoff d n) n) by apply wf_dict_of_pairs.
    apply filter_all. intros x Hx.
    rewrite (entries_cutoff d n Hwf) in Hx. now apply filter_In in Hx.
Qed.

Lemma sanitized_cutoff (d : pydict) (n : Z) :
  sanitized sanitize_string (cutoff (sanitized sanitize_string d) n) =
  cutoff (sanitized sanitize_string d) n.
Proof.
  apply sanitized_plain_fixed.
  - apply has_default_dict_of_pairs.
  - apply wf_dict_of_pairs.
  - intros name Hin. apply (keys_sanitized_fixed d).
    unfold keys in *.
    rewrite (entries_cutoff _ n (wf_sanitized sanitize_string d)) in Hin.
    apply in_map_iff in Hin as [x [Hx Hin]]. apply filter_In in Hin as [Hin _].
    apply in_map_iff. eauto.
Qed.

End GetAgain.

(** X14.  With a sanitize_string that changes nothing when applied a
    second time, a second call of get of GetTopCounts or GetCutoffCounts
    returns the rows of the first and leaves the measurement as the first
    call left it. *)
Theorem get_again_same (sanitize_string : string -> string)
  (v : view) (self : measurement) (d : pydict) :
  (forall name, sanitize_string (sanitize_string name) = sanitize_string name) ->
  acc self = NamedCounters d ->
  v <> GetCutoffTopCounts ->
  get sanitize_string v (fst (get sanitize_string v self)) =
  get sanitize_string v self.
Proof.
  intros Hidem Hacc Hv. destruct v; [| |congruence]; unfold get.
  - rewrite (GetTopCounts_get_named sanitize_string self d Hacc).
    cbn [fst].
    rewrite (GetTopCounts_get_named sanitize_string _ (sanitized sanitize_string d))
      by (destruct self as [nm fs [k|] mn tl a]; reflexivity).
    rewrite (sanitized_sanitized sanitize_string Hidem).
    destruct self as [nm fs [k|] mn tl a]; reflexivity.
  - rewrite (GetCutoffCounts_get_named sanitize_string self d Hacc).
    cbn [fst].
    rewrite (GetCutoffCounts_get_named sanitize_string _
               (cutoff (sanitized sanitize_string d) (the_min_n self)))
      by reflexivity.
    cbv zeta.
    assert (Hn : the_min_n
                   (set_acc (NamedCounters
                               (cutoff (sanitized sanitize_string d) (the_min_n self)))
                      (default_min_n
                         (set_acc (NamedCounters (sanitized sanitize_string d)) self)))
                 = the_min_n self)
      by (destruct self as [nm fs k [n|] tl a]; reflexivity).
    rewrite Hn, (sanitized_cutoff sanitize_string Hidem).
    rewrite (cutoff_cutoff _ _ (wf_sanitized sanitize_string d)).
    destruct self as [nm fs k [n|] tl a]; reflexivity.
Qed.

Lemma get_again_same_witness :
  let self := a_measurement "CutoffBodyTerms" counters_abc in
  get (fun s => s) GetCutoffCounts (fst (get (fun s => s) GetCutoffCounts self)) =
  get (fun s => s) GetCutoffCounts self.
Proof.
  apply (get_again_same (fun s => s) GetCutoffCounts
           (a_measurement "CutoffBodyTerms" counters_abc) counters_abc).
  - reflexivity.
  - reflexivity.
  - discriminate.
Defined.

(** A sanitize_string that is not idempotent: the second call of get
    strips another hash sign, and the two names fall together. *)
Example get_again_differs :
  let self := a_measurement "TopBodyTerms" (mkdict true [("#cat", 2); ("##cat", 5)]) in
  snd (get strip_hash GetTopCounts self) = OK [(5, "#cat"); (2, "cat")] /\
  snd (get strip_hash GetTopCounts (fst (get strip_hash GetTopCounts self))) =
    OK [(5, "cat")].
Proof. split; reflexivity. Qed.

(** ** The image enrichment: the URL and the outcomes *)

Lemma seq_index_errors {A : Type} (l : list A) (i : Z) (e : exn) :
  seq_index l i = Error e -> e = IndexError.
Proof.
  unfold seq_index.
  match goal with
  | |- (if ?out_of_range then _ else _) = _ -> _ => destruct out_of_range
  end; [congruence|].
  destruct (nth_error l _); congruence.
Qed.

(** [data[key]] raises KeyError for the key, IndexError or TypeError. *)
Lemma getitem_errors (data : json) (key : pykey) (e : exn) :
  getitem data key = Error e ->
  e = KeyError key \/ e = IndexError \/ e = TypeError.
Proof.
  unfold getitem.
  destruct data, key; try (intros [= <-]; auto);
    try (intros H; apply seq_index_errors in H; auto).
  destruct (assoc s d); [discriminate | intros [= <-]; auto].
Qed.

(** X15.  On a tweet that is a dict with an id, _get_img_url returns a
    value (the URL or None) or raises IndexError or TypeError: the
    KeyError of a missing payload element never leaves it. *)
Theorem get_img_url_no_KeyError (d : list (string * json)) (id : json) :
  assoc "id" d = Some id ->
  (exists url, ImageLabel._get_img_url (JDict d) = OK url) \/
  ImageLabel._get_img_url (JDict d) = Error IndexError \/
  ImageLabel._get_img_url (JDict d) = Error TypeError.
Proof.
  intros Hid.
  assert (Hlog : ImageLabel.log_tweet_id (JDict d) = OK tt).
  { unfold ImageLabel.log_tweet_id, getitem. now rewrite Hid. }
  unfold ImageLabel._get_img_url. cbn [contains bind].
  destruct (assoc "twitter_entities" d) as [entities|] eqn:He; cbn [bind].
  - assert (Hent : getitem (JDict d) (KStr "twitter_entities") = OK entities).
    { unfold getitem. now rewrite He. }
    rewrite Hent. cbn [bind].
    destruct (contains "media" entities) as [[|]|e] eqn:Hc; cbn [bind negb].
    + destruct (getitem entities (KStr "media")) as [media|e] eqn:E1; cbn [bind].
      * destruct (getitem media (KInt 0)) as [first|e] eqn:E2; cbn [bind].
        -- destruct (getitem first (KStr "media_url")) as [url|e] eqn:E3.
           ++ left. eauto.
           ++ apply getitem_errors in E3 as [-> | [-> | ->]]; auto.
              rewrite Hlog. left. cbn [bind]. eauto.
        -- apply getitem_errors in E2 as [-> | [-> | ->]]; auto.
           rewrite Hlog. left. cbn [bind]. eauto.
      * apply getitem_errors in E1 as [-> | [-> | ->]]; auto.
        rewrite Hlog. left. cbn [bind]. eauto.
    + rewrite Hlog. left. cbn [bind]. eauto.
    + right. right. f_equal.
      destruct entities; simpl in Hc; congruence.
  - rewrite Hlog. left. cbn [bind]. eauto.
Qed.

Lemma get_img_url_no_KeyError_witness :
  (exists url, ImageLabel._get_img_url (a_post "1") = OK url) \/
  ImageLabel._get_img_url (a_post "1") = Error IndexError \/
  ImageLabel._get_img_url (a_post "1") = Error TypeError.
Proof.
  apply (get_img_url_no_KeyError [("id", JStr "1"); ("verb", JStr "post")] (JStr "1")).
  reflexivity.
Defined.

(** X16.  _get_img_url reads the first media entry only: when it has a
    media_url, that one is returned, whatever the other entries are and
    whether or not the tweet has an id. *)
Theorem get_img_url_first_media (d entities first : list (string * json))
  (others : list json) (url : json) :
  assoc "twitter_entities" d = Some (JDict entities) ->
  assoc "media" entities = Some (JList (JDict first :: others)) ->
  assoc "media_url" first = Some url ->
  ImageLabel._get_img_url (JDict d) = OK url.
Proof.
  intros He Hm Hu. unfold ImageLabel._get_img_url, contains, getitem.
  rewrite He. cbn [bind]. rewrite Hm. cbn [bind negb].
  unfold seq_index. simpl. now rewrite Hu.
Qed.

Lemma get_img_url_first_media_witness :
  ImageLabel._get_img_url tweet_with_media = OK (JStr "http://t.co/a.jpg").
Proof.
  apply (get_img_url_first_media
           [("id", JStr "tag:search.twitter.com,2005:1");
            ("twitter_entities",
             JDict [("media", JList [JDict [("media_url", JStr "http://t.co/a.jpg")];
                                     JDict [("media_url", JStr "http://t.co/b.jpg")]])])]
           [("media", JList [JDict [("media_url", JStr "http://t.co/a.jpg")];
                             JDict [("media_url", JStr "http://t.co/b.jpg")]])]
           [("media_url", JStr "http://t.co/a.jpg")]
           [JDict [("media_url", JStr "http://t.co/b.jpg")]]);
    reflexivity.
Defined.

Section EnrichmentOutcomes.

Context {bytes image predictions probability : Type}.
Variable requests_get : json -> result (@ImageLabel.response bytes).
Variable Image_open : bytes -> result image.
Variable model_predict : image -> result predictions.
Variable k_decode_predictions :
  predictions -> Z -> list (list (string * string * probability)).
Variable str_probability : probability -> string.

Local Abbreviation enrichment_value :=
  (ImageLabel.enrichment_value requests_get Image_open model_predict
     k_decode_predictions str_probability).

(** X17.  enrichment_value returns None in two cases only: the tweet
    gives no usable URL (and has an id to log), or the response to the
    download is not ok.  With an image downloaded it returns a list or
    raises. *)
Theorem enrichment_value_None_iff (tweet : json) :
  enrichment_value tweet = OK None <->
  exists url,
    ImageLabel._get_img_url tweet = OK url /\
    ((truthy url = false /\ exists id, getitem tweet (KStr "id") = OK id) \/
     (truthy url = true /\
      exists response, requests_get url = OK response /\
                       ImageLabel.ok response = false)).
Proof.
  unfold ImageLabel.enrichment_value, ImageLabel._get_image_from_tweet,
    ImageLabel._download_image, ImageLabel.log_tweet_id,
    ImageLabel._make_predictions.
  split.
  - destruct (ImageLabel._get_img_url tweet) as [url|e]; cbn [bind]; [|discriminate].
    intros H. exists url. split; [reflexivity|].
    destruct (truthy url).
    + right. split; [reflexivity|].
      destruct (requests_get url) as [response|e]; cbn [bind] in H; [|discriminate].
      exists response. split; [reflexivity|].
      destruct (ImageLabel.ok response); [|reflexivity].
      destruct (Image_open (ImageLabel.content response)) as [img|e];
        cbn [bind] in H; [|discriminate].
      destruct (model_predict img) as [preds|e]; cbn [bind] in H; [|discriminate].
      destruct (k_decode_predictions preds ImageLabel.topk);
        cbn [bind] in H; discriminate.
    + left. split; [reflexivity|].
      destruct (getitem tweet (KStr "id")) as [id|e]; cbn [bind] in H;
        [eauto | discriminate].
  - intros [url [Hu [[Ht [id Hid]]|[Ht [response [Hr Hok]]]]]];
      rewrite Hu; cbn [bind]; rewrite Ht.
    + now rewrite Hid.
    + rewrite Hr. cbn [bind]. now rewrite Hok.
Qed.

(** X18.  When the URL is usable, the response ok, the image opens and
    the model predicts, enrichment_value returns the first sample's
    predictions, one triple per prediction and in their order, each
    (code, description, probability) as (description, probability, code). *)
Theorem enrichment_value_formats_predictions (tweet url : json)
  (response : @ImageLabel.response bytes) (img : image) (preds : predictions)
  (first : list (string * string * probability))
  (others : list (list (string * string * probability))) :
  ImageLabel._get_img_url tweet = OK url -> truthy url = true ->
  requests_get url = OK response -> ImageLabel.ok response = true ->
  Image_open (ImageLabel.content response) = OK img ->
  model_predict img = OK preds ->
  k_decode_predictions preds ImageLabel.topk = first :: others ->
  exists out,
    enrichment_value tweet = OK (Some out) /\
    length out = length first /\
    forall i code description p,
      nth_error first i = Some (code, description, p) ->
      nth_error out i = Some (description, str_probability p, code).
Proof.
  intros Hu Ht Hr Hok Hi Hp Hd.
  exists (ImageLabel._format_output str_probability first). split; [|split].
  - unfold ImageLabel.enrichment_value, ImageLabel._get_image_from_tweet,
      ImageLabel._download_image, ImageLabel._make_predictions.
    rewrite Hu. cbn [bind]. rewrite Ht, Hr. cbn [bind]. rewrite Hok, Hi.
    cbn [bind]. rewrite Hp. cbn [bind]. now rewrite Hd.
  - unfold ImageLabel._format_output. apply length_map.
  - intros i code description p Hnth. unfold ImageLabel._format_output.
    rewrite nth_error_map, Hnth. reflexivity.
Qed.

End EnrichmentOutcomes.

Lemma enrichment_value_formats_predictions_witness :
  exists out,
    ImageLabel.enrichment_value (http_ok 200) open_any predict_any decode_tabby str_any
      tweet_with_media = OK (Some out) /\
    length out = length [("n02123045", "tabby", tt)] /\
    forall i code description p,
      nth_error [("n02123045", "tabby", tt)] i = Some (code, description, p) ->
      nth_error out i = Some (description, str_any p, code).
Proof.
  apply (enrichment_value_formats_predictions (http_ok 200) open_any predict_any
           decode_tabby str_any tweet_with_media (JStr "http://t.co/a.jpg")
           (ImageLabel.mkresponse true 200 tt) tt tt [("n02123045", "tabby", tt)] []);
    reflexivity.
Defined.

(** ** Missing attributes *)

(** X19.  A measurement counting specified terms that was given no
    term_list fails only when there is a token to count: with tokens
    update raises AttributeError, without it returns; the counters are
    untouched either way. *)
Theorem specified_update_without_term_list
  (term_comparator : json -> string -> bool)
  (get_tokens : json -> result (list json))
  (self : measurement) (tweet : json) (tokens : list json) :
  term_list self = None -> get_tokens tweet = OK tokens ->
  specified_update term_comparator get_tokens self tweet =
    (self, match tokens with
           | [] => OK tt
           | _ :: _ => Error (AttributeError "term_list")
           end).
Proof.
  intros Hterms Htokens. unfold specified_update. rewrite Htokens.
  destruct tokens as [|token tokens]; [reflexivity|].
  cbn [for_each]. unfold count_token. now rewrite Hterms.
Qed.

Lemma specified_update_without_term_list_witness :
  let self := a_measurement "SpecifiedBodyTermCounters" defaultdict_int in
  specified_update eq_term (TokenizedBody_get_tokens (fun _ => true))
    self tweet_cat_bird_cat = (self, Error (AttributeError "term_list")).
Proof.
  apply (specified_update_without_term_list eq_term
           (TokenizedBody_get_tokens (fun _ => true))
           (a_measurement "SpecifiedBodyTermCounters" defaultdict_int)
           tweet_cat_bird_cat [JStr "cat"; JStr "bird"; JStr "cat"]);
    reflexivity.
Defined.

(** X20.  combine of a Counter with a Counters, or with a measurement
    that has no counter at all, raises AttributeError and leaves self as
    it was; so does combine of a Counters with anything but a Counters. *)
Theorem combine_other_kind_raises (self other : measurement) :
  acc self <> NoCounter -> ~ same_kind (acc self) (acc other) ->
  exists attribute, combine self other = (self, Error (AttributeError attribute)).
Proof.
  intros Hself Hkind. unfold combine, Counter_combine, Counters_combine,
    attr_counter, attr_counters.
  destruct (acc self) as [|c|d]; [congruence| |];
    destruct (acc other) as [|c'|d']; simpl in Hkind; try tauto; eauto.
Qed.

Lemma combine_other_kind_raises_witness :
  let self := a_measurement "AllBodyTerms" counters_abc in
  let other := mkmeasurement "Counter" None None None None (ScalarCounter 3) in
  exists attribute, combine self other = (self, Error (AttributeError attribute)).
Proof.
  apply (combine_other_kind_raises (a_measurement "AllBodyTerms" counters_abc)
           (mkmeasurement "Counter" None None None None (ScalarCounter 3))).
  - discriminate.
  - simpl. tauto.
Defined.
